(** * The daily sign-in of nonebot_plugin_farm

    A shallow embedding of [CUserSignDB] from
    [src/nonebot_plugin_farm/database/userSign.py]: the two tables
    [userSignLog] and [userSignSummary], the read-only queries
    [hasSigned], [getUserSignRewardByDate] and [getUserSignCountByDate],
    the sign-in [sign] with its streak and reward computation, and the
    calendar drawn by [drawSignCalendarImage].

    Conventions of the embedding:
    - Python integers are [Z]; SQL [TEXT]/[DATE] values are ASCII
      [string]s compared character by character, as the code compares them;
    - an [async] method is a computation in the monad [M], which threads
      the storage and can raise; [await] is sequencing;
    - every storage statement the code issues is a primitive that can fault,
      decided by the environment of the call; the statements are also
      recorded, in order, in a ghost trace;
    - [random.randint] draws from entropy handed in by the environment;
    - one call reads one calendar day from the clock. *)

From Stdlib Require Import ZArith NArith Lia Ascii String DecimalString.
From stdpp Require Import base strings gmap list.

#[local] Open Scope Z_scope.

(** ** Calendar dates: [datetime.strptime], [strftime], [timedelta] *)

Module Calendar.

#[local] Open Scope N_scope.

Record date : Type := mkDate { year : N; month : N; day : N }.

#[global] Instance date_eq_dec : EqDecision date.
Proof. solve_decision. Defined.

Definition is_leap (y : N) : bool :=
  (y mod 4 =? 0) && (negb (y mod 100 =? 0) || (y mod 400 =? 0)).

Definition days_in_month (y m : N) : N :=
  match m with
  | 2 => if is_leap y then 29 else 28
  | 4 | 6 | 9 | 11 => 30
  | _ => 31
  end.

(** The dates a [datetime.date] can hold: years 1 to 9999. *)
Definition valid_date (d : date) : bool :=
  (1 <=? year d) && (year d <=? 9999) &&
  (1 <=? month d) && (month d <=? 12) &&
  (1 <=? day d) && (day d <=? days_in_month (year d) (month d)).

Definition digit_char (n : N) : ascii := ascii_of_N (48 + n mod 10).

Definition digit_of (c : ascii) : option N :=
  let n := N_of_ascii c in
  if (48 <=? n) && (n <=? 57) then Some (n - 48) else None.

(** [d.strftime("%Y-%m-%d")]: four, two and two digits, zero padded. *)
Definition strftime (d : date) : string :=
  String (digit_char (year d / 1000)) (String (digit_char (year d / 100))
  (String (digit_char (year d / 10)) (String (digit_char (year d))
  (String "-" (String (digit_char (month d / 10)) (String (digit_char (month d))
  (String "-" (String (digit_char (day d / 10)) (String (digit_char (day d))
  EmptyString))))))))).

(** [%m] is the pattern [1[0-2]|0[1-9]|[1-9]]: the value and the rest. *)
Definition parse_month (s : string) : option (N * string) :=
  match s with
  | EmptyString => None
  | String c1 r1 =>
    let two :=
      match r1 with
      | EmptyString => None
      | String c2 r2 =>
        match digit_of c1, digit_of c2 with
        | Some 1, Some b => if b <=? 2 then Some (10 + b, r2) else None
        | Some 0, Some b => if 1 <=? b then Some (b, r2) else None
        | _, _ => None
        end
      end in
    match two with
    | Some res => Some res
    | None =>
      match digit_of c1 with
      | Some a => if 1 <=? a then Some (a, r1) else None
      | None => None
      end
    end
  end.

(** [%d] is the pattern [3[0-1]|[1-2]\d|0[1-9]|[1-9]| [1-9]]. *)
Definition parse_day (s : string) : option (N * string) :=
  match s with
  | EmptyString => None
  | String c1 r1 =>
    let two :=
      match r1 with
      | EmptyString => None
      | String c2 r2 =>
        match digit_of c1, digit_of c2 with
        | Some 3, Some b => if b <=? 1 then Some (30 + b, r2) else None
        | Some 1, Some b => Some (10 + b, r2)
        | Some 2, Some b => Some (20 + b, r2)
        | Some 0, Some b => if 1 <=? b then Some (b, r2) else None
        | None, Some b =>
          if Ascii.eqb c1 " " && (1 <=? b) then Some (b, r2) else None
        | _, _ => None
        end
      end in
    match two with
    | Some res => Some res
    | None =>
      match digit_of c1 with
      | Some a => if 1 <=? a then Some (a, r1) else None
      | None => None
      end
    end
  end.

(** [datetime.strptime(s, "%Y-%m-%d")]; [None] is the [ValueError] raised
    when the text does not match, text remains after the match, or the
    fields are not a date. *)
Definition strptime (s : string) : option date :=
  match s with
  | String y1 (String y2 (String y3 (String y4 (String sep1 r)))) =>
    match digit_of y1, digit_of y2, digit_of y3, digit_of y4 with
    | Some a, Some b, Some c, Some e =>
      if Ascii.eqb sep1 "-" then
        match parse_month r with
        | Some (m, String sep2 r') =>
          if Ascii.eqb sep2 "-" then
            match parse_day r' with
            | Some (dd, EmptyString) =>
              let d := mkDate (1000 * a + 100 * b + 10 * c + e) m dd in
              if valid_date d then Some d else None
            | _ => None
            end
          else None
        | _ => None
        end
      else None
    | _, _, _, _ => None
    end
  | _ => None
  end.

(** [d - timedelta(days=1)]; [None] is the [OverflowError] raised below
    the first representable day. *)
Definition minus_one_day (d : date) : option date :=
  if 1 <? day d then Some (mkDate (year d) (month d) (day d - 1))
  else if 1 <? month d then
    Some (mkDate (year d) (month d - 1) (days_in_month (year d) (month d - 1)))
  else if 1 <? year d then Some (mkDate (year d - 1) 12 31)
  else None.

End Calendar.

Import Calendar.

(** ** The tables *)

(** A row of [userSignLog]; the primary key is [(uid, signDate)]. The
    column [createdAt] is filled by the engine and never read. *)
Record LogRow : Type := mkLogRow {
  log_uid : string;
  log_signDate : string;
  log_isSupplement : bool;
  log_exp : Z;
  log_point : Z
}.

(** A row of [userSignSummary], keyed by [uid]; [lastSignDate] may be
    [NULL]. The column [updatedAt] is filled by the engine and never read. *)
Record SummaryRow : Type := mkSummaryRow {
  totalSignDays : Z;
  currentMonth : string;
  monthSignDays : Z;
  lastSignDate : option string;
  continuousDays : Z;
  supplementCount : Z
}.

#[global] Instance LogRow_eq_dec : EqDecision LogRow.
Proof. solve_decision. Defined.

#[global] Instance SummaryRow_eq_dec : EqDecision SummaryRow.
Proof. solve_decision. Defined.

(** The persistent state: the log with its most recent row first, the
    summaries, and the balances kept by [g_pDBService.user]. *)
Record Storage : Type := mkStorage {
  userSignLog : list LogRow;
  userSignSummary : gmap string SummaryRow;
  userExp : gmap string Z;
  userPoint : gmap string Z
}.

Definition empty_storage : Storage := mkStorage [] ∅ ∅ ∅.

(** ** Statements, faults and the monad *)

(** The storage statements [sign] and [hasSigned] issue. *)
Inductive Stmt : Type :=
  | SelectLog | SelectSummary
  | Begin | Commit | Rollback
  | InsertLog | UpdateSummary | InsertSummary
  | GetExp | SetExp | GetPoint | SetPoint.

#[global] Instance Stmt_eq_dec : EqDecision Stmt.
Proof. solve_decision. Defined.

Inductive Exn : Type :=
  | StorageFault (s : Stmt)    (* the engine failed on this statement *)
  | IntegrityError             (* a primary key is already present *)
  | ValueError                 (* strptime, or an empty randint range *)
  | OverflowError.             (* date arithmetic below year 1 *)

Inductive outcome (A : Type) : Type :=
  | Ret (a : A)
  | Raise (e : Exn).
Arguments Ret {A} a.
Arguments Raise {A} e.

(** What a call takes from outside: the day the clock shows, the raw
    output of the random generator for each draw, and the statements on
    which the engine faults. *)
Record Env : Type := mkEnv {
  today : date;
  entropy : nat → Z;
  faulty : Stmt → bool
}.

(** The storage together with the statements issued so far (ghost). *)
Record World : Type := mkWorld {
  db : Storage;
  trace : list Stmt
}.

Definition M (A : Type) : Type := World → outcome A * World.

#[global] Instance M_ret : MRet M := λ A a w, (Ret a, w).

#[global] Instance M_bind : MBind M := λ A B k m w,
  match m w with
  | (Ret a, w') => k a w'
  | (Raise e, w') => (Raise e, w')
  end.

(** A pure step that may raise. *)
Definition lift {A} (o : outcome A) : M A := λ w, (o, w).

(** [try: m except Exception: h]. *)
Definition try_except {A} (m : M A) (h : Exn → M A) : M A := λ w,
  match m w with
  | (Ret a, w') => (Ret a, w')
  | (Raise e, w') => h e w'
  end.

(** One statement: recorded, then either the engine faults or [f] runs
    on the storage. *)
Definition execute {A} (env : Env) (s : Stmt)
    (f : Storage → outcome (A * Storage)) : M A := λ w,
  let tr := trace w ++ [s] in
  if faulty env s then (Raise (StorageFault s), mkWorld (db w) tr)
  else match f (db w) with
       | Ret (a, st) => (Ret a, mkWorld st tr)
       | Raise e => (Raise e, mkWorld (db w) tr)
       end.

(** Modelled from the spec: [CSqlManager._transaction] of
    [database/database.py], which is not among the sources. The spec asks
    for one atomic transaction: the statements of the body commit
    together, and any exception inside it, the commit included, aborts it,
    leaves the storage as it was when the transaction began, and
    propagates. *)
Definition _transaction {A} (env : Env) (body : M A) : M A := λ w,
  match execute env Begin (λ st, Ret (tt, st)) w with
  | (Raise e, w1) => (Raise e, w1)
  | (Ret _, w1) =>
    match (a ← body; _ ← execute env Commit (λ st, Ret (tt, st)); mret a) w1 with
    | (Ret a, w2) => (Ret a, w2)
    | (Raise e, w2) => (Raise e, mkWorld (db w) (trace w2 ++ [Rollback]))
    end
  end.

#[global] Instance outcome_ret : MRet outcome := λ A a, Ret a.

#[global] Instance outcome_bind : MBind outcome := λ A B k o,
  match o with
  | Ret a => k a
  | Raise e => Raise e
  end.

(** ** The ledger *)

(** Modelled from the spec: the accessors of [g_pDBService.user], which
    are not among the sources. The spec gives the ledger as get and set
    accessors for a user's current experience and points balances; a user
    without an entry is read as balance 0. *)
Definition getUserExpByUid (env : Env) (uid : string) : M Z :=
  execute env GetExp (λ st, Ret (default 0 (userExp st !! uid), st)).

Definition updateUserExpByUid (env : Env) (uid : string) (exp : Z) : M unit :=
  execute env SetExp (λ st,
    Ret (tt, mkStorage (userSignLog st) (userSignSummary st)
               (<[uid := exp]> (userExp st)) (userPoint st))).

Definition getUserPointByUid (env : Env) (uid : string) : M Z :=
  execute env GetPoint (λ st, Ret (default 0 (userPoint st !! uid), st)).

Definition updateUserPointByUid (env : Env) (uid : string) (point : Z) : M unit :=
  execute env SetPoint (λ st,
    Ret (tt, mkStorage (userSignLog st) (userSignSummary st)
               (userExp st) (<[uid := point]> (userPoint st)))).

(** ** Queries on the log *)

(** The key of a row, compared as text. This is the comparison of the
    engine whenever [signDate] is not [number_like] (below); two texts
    that both read as numbers the engine compares as numbers. *)
Definition log_key (uid signDate : string) (r : LogRow) : bool :=
  bool_decide (log_uid r = uid) && bool_decide (log_signDate r = signDate).

(** [SELECT ... FROM userSignLog WHERE uid=? AND signDate=?] *)
Definition find_log (uid signDate : string) (st : Storage) : option LogRow :=
  List.find (log_key uid signDate) (userSignLog st).

(** [hasSigned]: any exception of the query is logged and answered
    [False]. *)
Definition hasSigned (env : Env) (uid signDate : string) : M bool :=
  try_except
    (row ← execute env SelectLog (λ st, Ret (find_log uid signDate st, st));
     mret (bool_decide (row ≠ None)))
    (λ _, mret false).

(** [getUserSignRewardByDate]: the pair recorded for the event, [(0, 0)]
    when there is none or the lookup raised. *)
Definition getUserSignRewardByDate (env : Env) (uid date : string) : M (Z * Z) :=
  try_except
    (_transaction env
       (row ← execute env SelectLog (λ st, Ret (find_log uid date st, st));
        match row with
        | None => mret (0, 0)
        | Some r => mret (log_exp r, log_point r)
        end))
    (λ _, mret (0, 0)).

(** ** Streak and reward *)

(** Lines 137-149: the streak after this sign-in. The date is parsed only
    on the branch that needs the day before it. *)
Definition current_continuous_days (summary_row : option SummaryRow)
    (isSupplement : bool) (signDate : string) : outcome Z :=
  match summary_row with
  | Some row =>
    if negb isSupplement then
      let last_date := lastSignDate row in
      match strptime signDate with
      | None => Raise ValueError
      | Some d =>
        match minus_one_day d with
        | None => Raise OverflowError
        | Some p =>
          let prev_date := strftime p in
          if bool_decide (last_date = Some prev_date)
          then Ret (continuousDays row + 1)
          else Ret 1
        end
      end
    else Ret 1
  | None => Ret 1
  end.

(** [random.randint(a, b)]: [a] plus a value below the width [b - a + 1]
    taken from the generator's raw output [r]; an empty range raises. *)
Definition randint (a b r : Z) : outcome Z :=
  if b <? a then Raise ValueError else Ret (a + r mod (b - a + 1)).

(** [int(x * 0.5)] for an integer [x]: the product is exact in binary
    floating point (below 2^53), and [int] truncates toward zero. *)
Definition half (x : Z) : Z := Z.quot x 2.

(** Lines 151-188: the reward. The draws are numbered in the order the
    code makes them. *)
Definition sign_reward (env : Env) (continuous_days : Z)
    (isSupplement : bool) : outcome (Z * Z) :=
  base_exp ← randint 5 50 (entropy env 0%nat);
  base_point ← randint 200 2000 (entropy env 1%nat);
  extra ←
    (if (1 <? continuous_days) && negb isSupplement then
       let days_factor := Z.min continuous_days 30 in
       let extra_exp_min := (days_factor - 1) * 8 in
       let extra_exp_max := (days_factor - 1) * 11 in
       extra_exp ← randint extra_exp_min extra_exp_max (entropy env 2%nat);
       let extra_point_min := (days_factor - 1) * 500 in
       let extra_point_max := (days_factor - 1) * 1000 in
       extra_point ← randint extra_point_min extra_point_max (entropy env 3%nat);
       mret (extra_exp, extra_point)
     else mret (0, 0));
  let final_exp := base_exp + extra.1 in
  let final_point := base_point + extra.2 in
  if isSupplement then mret (half final_exp, half final_point)
  else mret (final_exp, final_point).

(** ** The sign-in *)

(** [INSERT INTO userSignLog ...]: refused when the key is present. *)
Definition insert_log (env : Env) (r : LogRow) : M unit :=
  execute env InsertLog (λ st,
    match find_log (log_uid r) (log_signDate r) st with
    | Some _ => Raise IntegrityError
    | None =>
      Ret (tt, mkStorage (r :: userSignLog st) (userSignSummary st)
                 (userExp st) (userPoint st))
    end).

(** [UPDATE userSignSummary SET ... WHERE uid=?]: all six columns of the
    row of [uid], when there is one. *)
Definition update_summary (env : Env) (uid : string) (r : SummaryRow) : M unit :=
  execute env UpdateSummary (λ st,
    match userSignSummary st !! uid with
    | Some _ =>
      Ret (tt, mkStorage (userSignLog st) (<[uid := r]> (userSignSummary st))
                 (userExp st) (userPoint st))
    | None => Ret (tt, st)
    end).

(** [INSERT INTO userSignSummary ...]: refused when the key is present. *)
Definition insert_summary (env : Env) (uid : string) (r : SummaryRow) : M unit :=
  execute env InsertSummary (λ st,
    match userSignSummary st !! uid with
    | Some _ => Raise IntegrityError
    | None =>
      Ret (tt, mkStorage (userSignLog st) (<[uid := r]> (userSignSummary st))
                 (userExp st) (userPoint st))
    end).

(** [signDate[:7]] *)
Definition month_of (signDate : string) : string := substring 0 7 signDate.

(** Lines 198-239: the summary row written by a sign-in. *)
Definition new_summary (summary_row : option SummaryRow) (signDate : string)
    (isSupplement : bool) (continuous_days : Z) : SummaryRow :=
  let currentMonth' := month_of signDate in
  match summary_row with
  | Some row =>
    let monthSignDays' :=
      if bool_decide (currentMonth row = currentMonth')
      then monthSignDays row + 1 else 1 in
    let totalSignDays' := totalSignDays row + 1 in
    let supplementCount' :=
      if isSupplement then supplementCount row + 1 else supplementCount row in
    mkSummaryRow totalSignDays' currentMonth' monthSignDays'
      (Some signDate) continuous_days supplementCount'
  | None =>
    mkSummaryRow 1 currentMonth' 1 (Some signDate) 1
      (if isSupplement then 1 else 0)
  end.

(** Lines 191-246: the statements inside [async with cls._transaction()]. *)
Definition sign_writes (env : Env) (uid signDate : string) (isSupplement : bool)
    (summary_row : option SummaryRow) (continuous_days final_exp final_point : Z)
    : M unit :=
  _ ← insert_log env (mkLogRow uid signDate isSupplement final_exp final_point);
  _ ← match summary_row with
      | Some _ =>
        update_summary env uid
          (new_summary summary_row signDate isSupplement continuous_days)
      | None =>
        insert_summary env uid
          (new_summary summary_row signDate isSupplement continuous_days)
      end;
  currentExp ← getUserExpByUid env uid;
  _ ← updateUserExpByUid env uid (currentExp + final_exp);
  currentPoint ← getUserPointByUid env uid;
  updateUserPointByUid env uid (currentPoint + final_point).

(** [CUserSignDB.sign]; the empty [signDate] is the default argument. The
    result is 1 for a sign-in done, 2 for a date already signed, 0 for an
    exception caught. *)
Definition sign (env : Env) (uid signDate : string) : M Z :=
  try_except
    (let todayStr := strftime (today env) in
     let signDate := if bool_decide (signDate = "") then todayStr else signDate in
     signed ← hasSigned env uid signDate;
     if (signed : bool) then mret 2 else
     let isSupplement := negb (bool_decide (signDate = todayStr)) in
     summary_row ←
       execute env SelectSummary (λ st, Ret (userSignSummary st !! uid, st));
     continuous_days ←
       lift (current_continuous_days summary_row isSupplement signDate);
     reward ← lift (sign_reward env continuous_days isSupplement);
     let final_exp := reward.1 in
     let final_point := reward.2 in
     _ ← _transaction env
           (sign_writes env uid signDate isSupplement summary_row
              continuous_days final_exp final_point);
     mret 1)
    (λ _, mret 0).

(** ** What a call does, case by case *)

(** The date a call credits, and whether it is a supplement. *)
Definition credited_date (env : Env) (signDate : string) : string :=
  if bool_decide (signDate = "") then strftime (today env) else signDate.

Definition is_supplement (env : Env) (signDate : string) : bool :=
  negb (bool_decide (credited_date env signDate = strftime (today env))).

(** The statements of the transaction, in the order they are issued. *)
Definition write_sequence (summary_row : option SummaryRow) : list Stmt :=
  [Begin; InsertLog;
   if summary_row is Some _ then UpdateSummary else InsertSummary;
   GetExp; SetExp; GetPoint; SetPoint; Commit].

(** The storage after a sign-in that committed. *)
Definition committed (st : Storage) (uid signDate : string) (isSupplement : bool)
    (continuous_days final_exp final_point : Z) : Storage :=
  mkStorage
    (mkLogRow uid signDate isSupplement final_exp final_point :: userSignLog st)
    (<[uid := new_summary (userSignSummary st !! uid) signDate isSupplement
                continuous_days]> (userSignSummary st))
    (<[uid := default 0 (userExp st !! uid) + final_exp]> (userExp st))
    (<[uid := default 0 (userPoint st !! uid) + final_point]> (userPoint st)).

(** The statements a call issued: what it added to the trace. *)
Definition issued (w w' : World) : list Stmt :=
  drop (length (trace w)) (trace w').

(** ** Counting the log, and sequences of calls *)

(** [SELECT COUNT( * ) FROM userSignLog WHERE uid=?] *)
Definition count_user (uid : string) (l : list LogRow) : Z :=
  Z.of_nat (length (filter (λ r, log_uid r = uid) l)).

(** The rows of [uid] whose date is in month [m] (its first seven
    characters are [m]). *)
Definition count_month (uid m : string) (l : list LogRow) : Z :=
  Z.of_nat (length (filter (λ r, log_uid r = uid ∧ month_of (log_signDate r) = m) l)).

(** The rows of [uid] in month [m] since the user's latest row of another
    month: the run of month [m] at the recent end of the user's log. *)
Fixpoint month_run (uid m : string) (l : list LogRow) : Z :=
  match l with
  | [] => 0
  | r :: l' =>
    if bool_decide (log_uid r = uid) then
      if bool_decide (month_of (log_signDate r) = m)
      then 1 + month_run uid m l' else 0
    else month_run uid m l'
  end.

(** The rows older than the user's latest row of a month other than [m]:
    what the run of [month_run] does not reach. *)
Fixpoint before_other_month (uid m : string) (l : list LogRow) : list LogRow :=
  match l with
  | [] => []
  | r :: l' =>
    if bool_decide (log_uid r = uid)
       && negb (bool_decide (month_of (log_signDate r) = m))
    then l' else before_other_month uid m l'
  end.

(** The month of the latest row of [uid]. *)
Definition latest_month (uid : string) (l : list LogRow) : option string :=
  (λ r, month_of (log_signDate r)) <$> List.find (λ r, bool_decide (log_uid r = uid)) l.

(** The summary of [uid] agrees with the log. *)
Definition summary_consistent (uid : string) (st : Storage) : Prop :=
  match userSignSummary st !! uid with
  | None => count_user uid (userSignLog st) = 0
  | Some row =>
    totalSignDays row = count_user uid (userSignLog st) ∧
    monthSignDays row = month_run uid (currentMonth row) (userSignLog st) ∧
    latest_month uid (userSignLog st) = Some (currentMonth row)
  end.

(** One call of [sign] with what it takes from outside. *)
Record Call : Type := mkCall {
  call_env : Env;
  call_uid : string;
  call_date : string
}.

Definition run_call (w : World) (c : Call) : World :=
  (sign (call_env c) (call_uid c) (call_date c) w).2.

(** Calls executed one after the other. *)
Definition run_calls (cs : list Call) (w : World) : World := foldl run_call w cs.

(** The result codes of calls executed one after the other. *)
Fixpoint call_results (cs : list Call) (w : World) : list (outcome Z) :=
  match cs with
  | [] => []
  | c :: cs' =>
    (sign (call_env c) (call_uid c) (call_date c) w).1
      :: call_results cs' (run_call w c)
  end.

Definition initial_world : World := mkWorld empty_storage [].

(** An engine that never faults, one that faults on the statements
    listed, and a generator with constant raw output. *)
Definition no_faults : Stmt → bool := λ _, false.

Definition faults_on (l : list Stmt) : Stmt → bool := λ s, bool_decide (s ∈ l).

Definition calm (d : date) (r : Z) : Env := mkEnv d (λ _, r) no_faults.

(** ** The shape of a reward *)

(** How a granted pair decomposes into base and streak bonus, for a
    sign-in with the given streak: the base is in its ranges, the bonus is
    zero unless the sign-in is no supplement and the streak exceeds 1, is
    then in the ranges scaled by [min streak 30 - 1], and a supplement
    grants half the base, rounded down. *)
Definition reward_shape (isSupplement : bool) (streak granted_exp granted_point : Z)
    : Prop :=
  ∃ base_exp base_point bonus_exp bonus_point : Z,
    5 ≤ base_exp ≤ 50 ∧ 200 ≤ base_point ≤ 2000 ∧
    (isSupplement = true ∨ streak ≤ 1 → bonus_exp = 0 ∧ bonus_point = 0) ∧
    (isSupplement = false → 1 < streak →
       let d := Z.min streak 30 in
       8 * (d - 1) ≤ bonus_exp ≤ 11 * (d - 1) ∧
       500 * (d - 1) ≤ bonus_point ≤ 1000 * (d - 1)) ∧
    (isSupplement = false →
       granted_exp = base_exp + bonus_exp ∧ granted_point = base_point + bonus_point) ∧
    (isSupplement = true →
       granted_exp = base_exp / 2 ∧ granted_point = base_point / 2).

(** ** Scenarios *)

(** User [u1] signs in on 1 and 2 May 2025, each on the day itself. *)
Definition two_days : list Call :=
  [mkCall (calm (mkDate 2025 5 1) 7) "u1" "";
   mkCall (calm (mkDate 2025 5 2) 7) "u1" ""].

Definition two_day_streak : World := run_calls two_days initial_world.

(** On 10 May 2025 user [u1] back-fills 1 May, then 20 April, then 2 May. *)
Definition back_and_forth : list Call :=
  [mkCall (calm (mkDate 2025 5 10) 7) "u1" "2025-05-01";
   mkCall (calm (mkDate 2025 5 10) 7) "u1" "2025-04-20";
   mkCall (calm (mkDate 2025 5 10) 7) "u1" "2025-05-02"].

(** ** Draws, and texts the engine reads as numbers *)

(** [v] is what a uniform draw from [a..b] gives on the output [r] of the
    generator: a value of the range, fixed by the residue of [r] modulo
    the number [b - a + 1] of values, so that each value of the range
    comes from exactly one residue class. *)
Definition drawn (a b r v : Z) : Prop :=
  a ≤ v ≤ b ∧ v - a = r mod (b - a + 1).

(** Outputs of the generator for which the four draws of a sign-in with
    the given streak give the given base and bonus. *)
Definition outputs_for (streak base_exp base_point bonus_exp bonus_point : Z)
    : nat → Z := λ i,
  match i with
  | 0%nat => base_exp - 5
  | 1%nat => base_point - 200
  | 2%nat => bonus_exp - (Z.min streak 30 - 1) * 8
  | 3%nat => bonus_point - (Z.min streak 30 - 1) * 500
  | _ => 0
  end.



Fixpoint skip (p : ascii → bool) (s : string) : string :=
  match s with
  | EmptyString => EmptyString
  | String c s' => if p c then skip p s' else s
  end.



(** ** More about the log and the balances *)

Definition log_keys (l : list LogRow) : list (string * string) :=
  (λ r, (log_uid r, log_signDate r)) <$> l.

(** The user's rows written as supplements. *)
Definition count_supplement (uid : string) (l : list LogRow) : Z :=
  Z.of_nat (length (filter (λ r, log_uid r = uid ∧ log_isSupplement r = true) l)).

(** The latest row of [uid]. *)
Definition latest_row (uid : string) (l : list LogRow) : option LogRow :=
  List.find (λ r, bool_decide (log_uid r = uid)) l.

(** The experience and the points granted to [uid] over the whole log. *)
Fixpoint total_exp (uid : string) (l : list LogRow) : Z :=
  match l with
  | [] => 0
  | r :: l' =>
    (if bool_decide (log_uid r = uid) then log_exp r else 0) + total_exp uid l'
  end.

Fixpoint total_point (uid : string) (l : list LogRow) : Z :=
  match l with
  | [] => 0
  | r :: l' =>
    (if bool_decide (log_uid r = uid) then log_point r else 0) + total_point uid l'
  end.

(** ** [LIKE] and the monthly count *)

(** ASCII upper case, under which [LIKE] compares letters. *)
Definition upper (c : ascii) : ascii :=
  let n := N_of_ascii c in
  if (97 <=? n)%N && (n <=? 122)%N then ascii_of_N (n - 32) else c.

(** [s LIKE p] of the SQL engine: [%] stands for any run of characters,
    [_] for any one character, and any other character for itself, letters
    in either case. *)
Fixpoint like (p s : string) : bool :=
  match p with
  | EmptyString => if s is EmptyString then true else false
  | String c p' =>
    if Ascii.eqb c "%" then
      (fix skip (s : string) : bool :=
         like p' s || (if s is String _ s' then skip s' else false)) s
    else
      match s with
      | EmptyString => false
      | String c' s' =>
        (Ascii.eqb c "_" || Ascii.eqb (upper c) (upper c')) && like p' s'
      end
  end.

(** [SELECT signDate FROM userSignLog WHERE uid=? AND signDate LIKE ?] *)
Definition select_dates_like (uid pattern : string) (st : Storage) : list string :=
  log_signDate <$>
    filter (λ r, log_uid r = uid ∧ like pattern (log_signDate r) = true)
      (userSignLog st).

(** [getUserSignCountByDate]: the rows of the user whose date is [LIKE]
    the month followed by a dash and anything; 0 when the query raised. *)
Definition getUserSignCountByDate (env : Env) (uid monthStr : string) : M Z :=
  try_except
    (let param := (monthStr ++ "-%")%string in
     execute env SelectLog (λ st,
       Ret (Z.of_nat (length (select_dates_like uid param st)), st)))
    (λ _, mret 0).

(** What the summary of [uid] keeps of the log besides the counts of
    [summary_consistent]: the supplements, the streak within the total, and
    the date and month of the latest row. *)
Definition summary_tracks_log (uid : string) (st : Storage) : Prop :=
  match userSignSummary st !! uid with
  | None => latest_row uid (userSignLog st) = None
  | Some row =>
    supplementCount row = count_supplement uid (userSignLog st) ∧
    1 ≤ continuousDays row ≤ totalSignDays row ∧
    ∃ r, latest_row uid (userSignLog st) = Some r ∧
         lastSignDate row = Some (log_signDate r) ∧
         currentMonth row = month_of (log_signDate r)
  end.

(** The balances of [uid] are what the log granted. *)
Definition balances_follow_log (uid : string) (st : Storage) : Prop :=
  default 0 (userExp st !! uid) = total_exp uid (userSignLog st) ∧
  default 0 (userPoint st !! uid) = total_point uid (userSignLog st).

(** ** Sign-ins day after day *)

(** Calls of [uid] with the default date on a working engine, each made
    the day after the one before; [prev] is the day before the first. *)
Fixpoint daily_calls (uid : string) (prev : date) (cs : list Call) : Prop :=
  match cs with
  | [] => True
  | c :: cs' =>
    call_uid c = uid ∧ call_date c = "" ∧
    (∀ s, faulty (call_env c) s = false) ∧
    valid_date (today (call_env c)) = true ∧
    minus_one_day (today (call_env c)) = Some prev ∧
    daily_calls uid (today (call_env c)) cs'
  end.

(** A number that grows with the date. *)
Definition date_key (d : date) : N := (year d * 512 + month d * 32 + day d)%N.

(** The user has a streak of [k] days ending on [d], and no row for a
    later day. *)
Definition streak_until (uid : string) (d : date) (k : Z) (st : Storage) : Prop :=
  (∃ row, userSignSummary st !! uid = Some row ∧
          lastSignDate row = Some (strftime d) ∧ continuousDays row = k) ∧
  ∀ r, r ∈ userSignLog st → log_uid r = uid →
       ∃ d', valid_date d' = true ∧ log_signDate r = strftime d' ∧
             (date_key d' <= date_key d)%N.

(** The calls that returned Success. *)
Definition is_success (o : outcome Z) : bool :=
  match o with
  | Ret 1 => true
  | _ => false
  end.

Definition successes (results : list (outcome Z)) : nat :=
  length (filter (λ o, is_success o = true) results).

(** A text of ASCII characters only. On such texts the characters of
    Python and of the engine are the bytes of the embedding, and
    [str.isdigit] and [int] read the digits 0 to 9 and nothing else. *)
Definition ascii_text (s : string) : bool :=
  forallb (λ c, (N_of_ascii c <? 128)%N) (list_ascii_of_string s).

(** ** The sign-in calendar *)

(** [calendar.monthrange] and what it uses of [calendar] and [datetime]. *)
Module PyCalendar.

Definition isleap (year : Z) : bool :=
  (year mod 4 =? 0) && (negb (year mod 100 =? 0) || (year mod 400 =? 0)).

Definition mdays (month : Z) : Z :=
  match month with
  | 1 => 31 | 2 => 28 | 3 => 31 | 4 => 30 | 5 => 31 | 6 => 30
  | 7 => 31 | 8 => 31 | 9 => 30 | 10 => 31 | 11 => 30 | 12 => 31
  | _ => 0
  end.

Definition _days_before_year (year : Z) : Z :=
  let y := year - 1 in
  y * 365 + y / 4 - y / 100 + y / 400.

Definition _days_before_month (year month : Z) : Z :=
  match month with
  | 1 => 0 | 2 => 31 | 3 => 59 | 4 => 90 | 5 => 120 | 6 => 151
  | 7 => 181 | 8 => 212 | 9 => 243 | 10 => 273 | 11 => 304 | 12 => 334
  | _ => 0
  end + (if (2 <? month) && isleap year then 1 else 0).

Definition _ymd2ord (year month day : Z) : Z :=
  _days_before_year year + _days_before_month year month + day.

(** Monday is 0. Years outside 1..9999 are taken modulo 400 from 2000. *)
Definition weekday (year month day : Z) : Z :=
  let year :=
    if (1 <=? year) && (year <=? 9999) then year else 2000 + year mod 400 in
  (_ymd2ord year month day + 6) mod 7.

(** The weekday of the first day and the number of days; a month outside
    1..12 raises [IllegalMonthError], a [ValueError]. *)
Definition monthrange (year month : Z) : outcome (Z * Z) :=
  if (1 <=? month) && (month <=? 12) then
    let day1 := weekday year month 1 in
    let ndays := mdays month + (if (month =? 2) && isleap year then 1 else 0) in
    Ret (day1, ndays)
  else Raise ValueError.

End PyCalendar.

(** [str(n)] of an integer. *)
Definition str (n : Z) : string := NilZero.string_of_int (Z.to_int n).

(** [f"{n:0wd}"]: the sign, then the digits padded with zeros to the
    width [w], sign included. *)
Definition format_0d (w : nat) (n : Z) : string :=
  let digits := NilZero.string_of_uint (N.to_uint (Z.to_N (Z.abs n))) in
  let zeros (k : nat) := string_of_list_ascii (repeat "0"%char k) in
  if n <? 0
  then String "-" (zeros (w - 1 - String.length digits)%nat ++ digits)%string
  else (zeros (w - String.length digits)%nat ++ digits)%string.

(** [s[-2:]] *)
Definition last_two (s : string) : string :=
  substring (String.length s - 2) 2 s.

(** [s.isdigit()] on ASCII text. *)
Definition isdigit (s : string) : bool :=
  match s with
  | EmptyString => false
  | _ => forallb (λ c, bool_decide (digit_of c ≠ None)) (list_ascii_of_string s)
  end.

(** [int(s)] of a text of digits. *)
Definition int_of_digits (s : string) : Z :=
  fold_left (λ acc c, 10 * acc + Z.of_N (default 0%N (digit_of c)))
    (list_ascii_of_string s) 0.

(** The set [{int(r[0][-2:]) for r in rows if r[0][-2:].isdigit()}], for
    rows that are ASCII texts ([ascii_text]): there [isdigit] accepts the
    digits 0 to 9 only and [int] does not raise. *)
Definition signed_days (rows : list string) : list Z :=
  int_of_digits <$> filter (λ s, isdigit s = true) (last_two <$> rows).

(** The drawing surface [BuildImage] is a library outside the repository;
    the embedding records the calls made on it, in order. *)
Definition colour : Type := Z * Z * Z.

Inductive DrawOp : Type :=
  | Text (pos : Z * Z) (text : string) (font_size : Z)
  | Rectangle (box : Z * Z * Z * Z) (fill : colour) (outline : string) (width : Z).

Record Image : Type := mkImage {
  img_width : Z;
  img_height : Z;
  img_color : colour;
  img_ops : list DrawOp
}.

Definition BuildImage (width height : Z) (color : colour) : Image :=
  mkImage width height color [].

Definition draw (op : DrawOp) (img : Image) : Image :=
  mkImage (img_width img) (img_height img) (img_color img) (img_ops img ++ [op]).

Definition cellSize : Z := 80.
Definition padding : Z := 40.
Definition titleHeight : Z := 80.
Definition cols : Z := 7.
Definition rows : Z := 6.

Definition GREEN : colour := (112, 196, 112).
Definition GREY : colour := (220, 220, 220).

(** The corners of the cell of a day (lines 280-286). *)
Definition cell_box (firstWeekday day : Z) : Z * Z * Z * Z :=
  let index := day + firstWeekday - 1 in
  let row := index / cols in
  let col := index mod cols in
  let x1 := padding + col * cellSize in
  let y1 := padding + titleHeight + row * cellSize in
  let x2 := x1 + cellSize - 10 in
  let y2 := y1 + cellSize - 10 in
  (x1, y1, x2, y2).

(** The body of the loop over the days (lines 279-289). *)
Definition draw_day (firstWeekday : Z) (signedDays : list Z) (img : Image)
    (day : Z) : Image :=
  let '(x1, y1, x2, y2) := cell_box firstWeekday day in
  let color := if bool_decide (day ∈ signedDays) then GREEN else GREY in
  let img := draw (Rectangle (x1, y1, x2, y2) color "black" 2) img in
  draw (Text (x1 + 10, y1 + 10) (str day) 24) img.

(** [drawSignCalendarImage]. The title is drawn before the month is
    checked; the query is the only part inside [try]. *)
Definition drawSignCalendarImage (env : Env) (uid : string) (year month : Z)
    : M Image :=
  let width := cellSize * cols + padding * 2 in
  let height := cellSize * rows + padding * 2 + titleHeight in
  let img := BuildImage width height (255, 255, 255) in
  let img :=
    draw (Text (padding, 20) (str year ++ "年" ++ str month ++ "月签到表")%string 36)
      img in
  range ← lift (PyCalendar.monthrange year month);
  let firstWeekday := range.1 in
  let totalDays := range.2 in
  let monthStr := (format_0d 4 year ++ "-" ++ format_0d 2 month)%string in
  signedDays ←
    try_except
      (dates ← execute env SelectLog (λ st,
         Ret (select_dates_like uid (monthStr ++ "-%")%string st, st));
       mret (signed_days dates))
      (λ _, mret []);
  mret (fold_left (draw_day firstWeekday signedDays)
          (seqZ 1 totalDays) img).

(** The two calls the loop makes for a day. *)
Definition day_ops (firstWeekday : Z) (signedDays : list Z) (day : Z) : list DrawOp :=
  let '(x1, y1, x2, y2) := cell_box firstWeekday day in
  [Rectangle (x1, y1, x2, y2)
     (if bool_decide (day ∈ signedDays) then GREEN else GREY) "black" 2;
   Text (x1 + 10, y1 + 10) (str day) 24].

(** Two boxes that share no point. *)
Definition boxes_disjoint (a b : Z * Z * Z * Z) : Prop :=
  let '(ax1, ay1, ax2, ay2) := a in
  let '(bx1, by1, bx2, by2) := b in
  ax2 < bx1 ∨ bx2 < ax1 ∨ ay2 < by1 ∨ by2 < ay1.

(** A box inside the margins of an image. *)
Definition box_inside (img : Image) (a : Z * Z * Z * Z) : Prop :=
  let '(x1, y1, x2, y2) := a in
  padding ≤ x1 ∧ x1 < x2 ∧ x2 ≤ img_width img - padding ∧
  padding + titleHeight ≤ y1 ∧ y1 < y2 ∧ y2 ≤ img_height img - padding.

(** The text of the date (year, month, day) as the calendar query and the
    clock write it. *)
Definition date_text (year month day : Z) : string :=
  (format_0d 4 year ++ "-" ++ format_0d 2 month ++ "-" ++ format_0d 2 day)%string.

(** The days the query marks as signed. *)
Definition marked (env : Env) (uid : string) (year month : Z) (w : World) : list Z :=
  if faulty env SelectLog then []
  else signed_days
         (select_dates_like uid
            ((format_0d 4 year ++ "-" ++ format_0d 2 month) ++ "-%")%string (db w)).

(** * Properties *)

(** ** Dates: formatting then parsing gives the date back *)

Module CalendarFacts.

#[local] Open Scope N_scope.

Ltac nlia := zify; Z.to_euclidean_division_equations; lia.

Lemma digit_of_digit_char (n : N) : digit_of (digit_char n) = Some (n mod 10).
Proof.
  unfold digit_of, digit_char.
  assert (n mod 10 < 10) by (apply N.mod_lt; lia).
  rewrite N_ascii_embedding by nlia.
  destruct (48 <=? 48 + n mod 10) eqn:Hlo; [|apply N.leb_gt in Hlo; nlia].
  destruct (48 + n mod 10 <=? 57) eqn:Hhi; [|apply N.leb_gt in Hhi; nlia].
  simpl. f_equal. nlia.
Qed.

Lemma days_in_month_le (y m : N) : days_in_month y m <= 31.
Proof. unfold days_in_month. repeat case_match; lia. Qed.

Lemma parse_month_strftime (m : N) (r : string) :
  1 <= m <= 12 →
  parse_month (String (digit_char (m / 10)) (String (digit_char m) (String "-" r)))
  = Some (m, String "-" r).
Proof.
  intros Hm. destruct m as [|p]; [lia|].
  do 4 (try destruct p as [p|p|]); try lia; reflexivity.
Qed.

Lemma parse_day_strftime (d : N) :
  1 <= d <= 31 →
  parse_day (String (digit_char (d / 10)) (String (digit_char d) EmptyString))
  = Some (d, EmptyString).
Proof.
  intros Hd. destruct d as [|p]; [lia|].
  do 5 (try destruct p as [p|p|]); try lia; reflexivity.
Qed.

Lemma valid_date_bounds (d : date) :
  valid_date d = true →
  1 <= year d <= 9999 ∧ 1 <= month d <= 12 ∧
  1 <= day d <= days_in_month (year d) (month d).
Proof.
  unfold valid_date. rewrite !andb_true_iff, !N.leb_le. tauto.
Qed.

(** Round trip: [strptime] reads back what [strftime] wrote. *)
Lemma strptime_strftime (d : date) :
  valid_date d = true → strptime (strftime d) = Some d.
Proof.
  intros Hv. pose proof (valid_date_bounds d Hv) as (Hy & Hm & Hd).
  pose proof (days_in_month_le (year d) (month d)).
  unfold strptime, strftime.
  rewrite !digit_of_digit_char. simpl Ascii.eqb. cbv iota.
  rewrite parse_month_strftime by lia. simpl Ascii.eqb. cbv iota.
  rewrite parse_day_strftime by lia.
  replace (1000 * ((year d / 1000) mod 10) + 100 * ((year d / 100) mod 10)
           + 10 * ((year d / 10) mod 10) + year d mod 10) with (year d) by nlia.
  destruct d as [y m dd]; simpl in *. rewrite Hv. reflexivity.
Qed.

(** Only the first day of year 1 has no day before it. *)
Lemma minus_one_day_Some (d : date) :
  valid_date d = true → d ≠ mkDate 1 1 1 → ∃ p, minus_one_day d = Some p.
Proof.
  intros Hv Hne. pose proof (valid_date_bounds d Hv) as (Hy & Hm & Hd).
  unfold minus_one_day.
  destruct (1 <? day d) eqn:H1; [eauto|]. apply N.ltb_ge in H1.
  destruct (1 <? month d) eqn:H2; [eauto|]. apply N.ltb_ge in H2.
  destruct (1 <? year d) eqn:H3; [eauto|]. apply N.ltb_ge in H3.
  exfalso. apply Hne. destruct d as [y m dd]; simpl in *. f_equal; lia.
Qed.


End CalendarFacts.

(** ** The monad: what each phase of [sign] does *)

Ltac head_scrutinee t :=
  lazymatch t with
  | match ?x with _ => _ end => head_scrutinee x
  | _ => t
  end.

(** Case analysis on the innermost scrutinee the goal is stuck on. *)
Ltac step :=
  lazymatch goal with
  | |- ?g => let x := head_scrutinee g in destruct x eqn:?; simpl
  end.

Ltac unfold_M :=
  unfold try_except, execute, lift, mbind, M_bind, mret, M_ret.

Lemma hasSigned_run env uid sd w :
  hasSigned env uid sd w =
    (Ret (negb (faulty env SelectLog) && bool_decide (find_log uid sd (db w) ≠ None)),
     mkWorld (db w) (trace w ++ [SelectLog])).
Proof.
  unfold hasSigned. unfold_M.
  destruct (faulty env SelectLog); reflexivity.
Qed.

(** The transaction of [sign]: it commits exactly when the key is free and
    none of its statements faults; otherwise the storage is as before. *)
Lemma sign_transaction_cases env uid sd sup cd fe fp w :
  let srow := userSignSummary (db w) !! uid in
  match _transaction env (sign_writes env uid sd sup srow cd fe fp) w with
  | (Ret _, w') =>
      find_log uid sd (db w) = None ∧
      (∀ s, s ∈ write_sequence srow → faulty env s = false) ∧
      w' = mkWorld (committed (db w) uid sd sup cd fe fp)
             (trace w ++ write_sequence srow)
  | (Raise _, w') =>
      db w' = db w ∧
      (∃ tr, trace w' = trace w ++ tr) ∧
      (find_log uid sd (db w) ≠ None ∨
       ∃ s, s ∈ write_sequence srow ∧ faulty env s = true)
  end.
Proof.
  intros srow. subst srow.
  unfold _transaction, sign_writes, insert_log, update_summary, insert_summary,
    getUserExpByUid, updateUserExpByUid, getUserPointByUid, updateUserPointByUid,
    committed, write_sequence.
  unfold_M.
  destruct (userSignSummary (db w) !! uid) as [row|] eqn:Hrow; simpl.
  all: repeat (step; try rewrite Hrow; simpl).
  all: try (split; [reflexivity|];
            split; [eexists; rewrite <- ?app_assoc; reflexivity|];
            first [ left; congruence
                  | right; eexists; split; [|eassumption];
                    rewrite !elem_of_cons; tauto ]).
  all: split; [reflexivity|]; split;
         [ intros s Hs; rewrite !elem_of_cons, elem_of_nil in Hs;
           intuition (subst; assumption)
         | rewrite <- !app_assoc; reflexivity ].
Qed.

Lemma sign_transaction_ok env uid sd sup cd fe fp w :
  let srow := userSignSummary (db w) !! uid in
  find_log uid sd (db w) = None →
  (∀ s, s ∈ write_sequence srow → faulty env s = false) →
  _transaction env (sign_writes env uid sd sup srow cd fe fp) w =
    (Ret tt, mkWorld (committed (db w) uid sd sup cd fe fp)
               (trace w ++ write_sequence srow)).
Proof.
  intros srow Hfree Hok.
  pose proof (sign_transaction_cases env uid sd sup cd fe fp w) as H.
  fold srow in H. simpl in H.
  destruct (_transaction env (sign_writes env uid sd sup srow cd fe fp) w)
    as [[[]|e] w'].
  - destruct H as (_ & _ & ->). reflexivity.
  - destruct H as (_ & _ & [Hk | (s & Hs & Hf)]); [congruence|].
    rewrite (Hok s Hs) in Hf. discriminate.
Qed.

(** [sign] as one nested case distinction. *)
Lemma sign_unfold env uid d w :
  let sd := credited_date env d in
  let sup := is_supplement env d in
  let srow := userSignSummary (db w) !! uid in
  let w1 := mkWorld (db w) (trace w ++ [SelectLog]) in
  let w2 := mkWorld (db w) ((trace w ++ [SelectLog]) ++ [SelectSummary]) in
  sign env uid d w =
    if negb (faulty env SelectLog) && bool_decide (find_log uid sd (db w) ≠ None)
    then (Ret 2, w1)
    else if faulty env SelectSummary then (Ret 0, w2)
    else match current_continuous_days srow sup sd with
         | Raise _ => (Ret 0, w2)
         | Ret cd =>
           match sign_reward env cd sup with
           | Raise _ => (Ret 0, w2)
           | Ret (fe, fp) =>
             match _transaction env (sign_writes env uid sd sup srow cd fe fp) w2 with
             | (Ret _, w3) => (Ret 1, w3)
             | (Raise _, w3) => (Ret 0, w3)
             end
           end
         end.
Proof.
  intros sd sup srow w1 w2.
  unfold sign. unfold try_except at 1. unfold mbind at 1. unfold M_bind at 1.
  fold (credited_date env d). fold sd.
  rewrite hasSigned_run. fold w1.
  destruct (negb (faulty env SelectLog) && bool_decide (find_log uid sd (db w) ≠ None));
    [reflexivity|].
  unfold_M. simpl.
  change (negb (bool_decide (sd = strftime (today env)))) with sup. fold w2.
  destruct (faulty env SelectSummary); [reflexivity|].
  fold srow.
  destruct (current_continuous_days srow sup sd) as [cd|]; [|reflexivity].
  destruct (sign_reward env cd sup) as [[fe fp]|]; [|reflexivity].
  simpl.
  destruct (_transaction env (sign_writes env uid sd sup srow cd fe fp) _)
    as [[[]|e] w3]; reflexivity.
Qed.

(** ** The random draws and the reward *)

Lemma randint_bounds (a b r : Z) :
  a ≤ b → ∃ v, randint a b r = Ret v ∧ a ≤ v ≤ b.
Proof.
  intros Hab. unfold randint.
  destruct (b <? a) eqn:Hlt; [apply Z.ltb_lt in Hlt; lia|].
  eexists. split; [reflexivity|].
  pose proof (Z.mod_pos_bound r (b - a + 1)). lia.
Qed.

(** Every value of the range is drawn for some output of the generator,
    and the draw only depends on that output modulo the width. *)
Lemma randint_onto (a b v : Z) :
  a ≤ v ≤ b → randint a b (v - a) = Ret v.
Proof.
  intros Hv. unfold randint.
  destruct (b <? a) eqn:Hlt; [apply Z.ltb_lt in Hlt; lia|].
  rewrite Z.mod_small by lia. f_equal. lia.
Qed.

Lemma randint_periodic (a b r : Z) :
  a ≤ b → randint a b (r + (b - a + 1)) = randint a b r.
Proof.
  intros Hab. unfold randint.
  destruct (b <? a); [reflexivity|].
  replace (r + (b - a + 1)) with (r + 1 * (b - a + 1)) by lia.
  rewrite Z.mod_add by lia. reflexivity.
Qed.

Lemma half_floor (x : Z) : 0 ≤ x → half x = x / 2.
Proof. intros Hx. unfold half. apply Z.quot_div_nonneg; lia. Qed.

(** The reward never raises, and has the shape the comments of the code
    announce. *)
Lemma sign_reward_shape env streak sup :
  ∃ fe fp, sign_reward env streak sup = Ret (fe, fp) ∧ reward_shape sup streak fe fp.
Proof.
  unfold sign_reward.
  destruct (randint_bounds 5 50 (entropy env 0%nat)) as (be & -> & Hbe); [lia|].
  destruct (randint_bounds 200 2000 (entropy env 1%nat)) as (bp & -> & Hbp); [lia|].
  simpl.
  destruct (1 <? streak) eqn:Hst; [apply Z.ltb_lt in Hst | apply Z.ltb_ge in Hst].
  - destruct sup; simpl.
    + exists (half (be + 0)), (half (bp + 0)). split; [reflexivity|].
      exists be, bp, 0, 0. rewrite !Z.add_0_r, !half_floor by lia.
      repeat split; try lia; try discriminate.
    + set (df := Z.min streak 30).
      assert (Hdf : 2 ≤ df) by (unfold df; lia).
      destruct (randint_bounds ((df - 1) * 8) ((df - 1) * 11) (entropy env 2%nat))
        as (xe & -> & Hxe); [lia|].
      destruct (randint_bounds ((df - 1) * 500) ((df - 1) * 1000) (entropy env 3%nat))
        as (xp & -> & Hxp); [lia|].
      simpl. exists (be + xe), (bp + xp). split; [reflexivity|].
      exists be, bp, xe, xp. fold df.
      repeat split; try lia; try discriminate.
      all: intros [?|?]; [discriminate | lia].
  - simpl. destruct sup; simpl.
    + exists (half (be + 0)), (half (bp + 0)). split; [reflexivity|].
      exists be, bp, 0, 0. rewrite !Z.add_0_r, !half_floor by lia.
      repeat split; try lia; try discriminate.
    + exists (be + 0), (bp + 0). split; [reflexivity|].
      exists be, bp, 0, 0. repeat split; try lia; try discriminate.
Qed.

(** ** Consequences of the case distinction *)

Lemma sign_already_signed env uid d w :
  faulty env SelectLog = false →
  find_log uid (credited_date env d) (db w) ≠ None →
  sign env uid d w = (Ret 2, mkWorld (db w) (trace w ++ [SelectLog])).
Proof.
  intros Hf Hk. rewrite sign_unfold. simpl.
  rewrite Hf, bool_decide_true by assumption. reflexivity.
Qed.

(** Every call ends in one of three ways; each extends the trace, first by
    the lookup of [hasSigned]. *)
Lemma sign_cases env uid d w :
  let sd := credited_date env d in
  let sup := is_supplement env d in
  let srow := userSignSummary (db w) !! uid in
  (faulty env SelectLog = false ∧ find_log uid sd (db w) ≠ None ∧
   sign env uid d w = (Ret 2, mkWorld (db w) (trace w ++ [SelectLog])))
  ∨ (∃ w', sign env uid d w = (Ret 0, w') ∧ db w' = db w ∧
       (∃ tr, trace w' = trace w ++ SelectLog :: tr) ∧
       (faulty env SelectLog = true ∨ find_log uid sd (db w) = None) ∧
       ((∃ s, faulty env s = true) ∨
        ∃ e, current_continuous_days srow sup sd = Raise e))
  ∨ (find_log uid sd (db w) = None ∧
     (∀ s, s ∈ SelectSummary :: write_sequence srow → faulty env s = false) ∧
     ∃ cd fe fp,
       current_continuous_days srow sup sd = Ret cd ∧
       sign_reward env cd sup = Ret (fe, fp) ∧
       sign env uid d w =
         (Ret 1, mkWorld (committed (db w) uid sd sup cd fe fp)
                   (trace w ++ SelectLog :: SelectSummary :: write_sequence srow))).
Proof.
  intros sd sup srow. rewrite sign_unfold. simpl. fold sd sup srow.
  set (w2 := mkWorld (db w) ((trace w ++ [SelectLog]) ++ [SelectSummary])).
  assert (Htr2 : ∃ tr, trace w2 = trace w ++ SelectLog :: tr).
  { eexists. unfold w2. simpl. rewrite <- app_assoc. reflexivity. }
  destruct (negb (faulty env SelectLog) && bool_decide (find_log uid sd (db w) ≠ None))
    eqn:Hsigned.
  { left. apply andb_true_iff in Hsigned as [Hf Hk].
    apply negb_true_iff in Hf. apply bool_decide_eq_true in Hk. auto. }
  assert (Hpass : faulty env SelectLog = true ∨ find_log uid sd (db w) = None).
  { apply andb_false_iff in Hsigned as [Hf | Hk].
    - left. apply negb_false_iff in Hf. assumption.
    - right. apply bool_decide_eq_false in Hk.
      destruct (find_log uid sd (db w)); [exfalso; apply Hk; discriminate | reflexivity]. }
  right.
  destruct (faulty env SelectSummary) eqn:Hsum.
  { left. exists w2. eauto 10. }
  destruct (current_continuous_days srow sup sd) as [cd|e] eqn:Hcd.
  2: { left. exists w2. eauto 10. }
  destruct (sign_reward_shape env cd sup) as (fe & fp & Hrw & _). rewrite Hrw.
  pose proof (sign_transaction_cases env uid sd sup cd fe fp w2) as H.
  simpl in H. fold srow in H.
  destruct (_transaction env _ _) as [[[]|e] w3].
  - right. destruct H as (Hk & Hok & ->). split; [assumption|]. split.
    { intros s Hs. apply elem_of_cons in Hs as [->|Hs]; auto. }
    exists cd, fe, fp. repeat split; try assumption.
    simpl. rewrite <- !app_assoc. reflexivity.
  - left. exists w3. destruct H as (Hdb & (tr & Htr) & Hwhy).
    split; [reflexivity|]. split; [assumption|]. split.
    { exists (SelectSummary :: tr). rewrite Htr. unfold w2. simpl.
      rewrite <- !app_assoc. reflexivity. }
    split; [assumption|]. left.
    destruct Hwhy as [Hk | (s & _ & Hs)]; [|eauto].
    destruct Hpass as [Hf | Hfree]; [eauto | contradiction].
Qed.

(** What a successful call leaves behind. *)
Lemma sign_success_inv env uid d w w' :
  sign env uid d w = (Ret 1, w') →
  let sd := credited_date env d in
  let sup := is_supplement env d in
  let srow := userSignSummary (db w) !! uid in
  find_log uid sd (db w) = None ∧
  (∀ s, s ∈ SelectSummary :: write_sequence srow → faulty env s = false) ∧
  ∃ cd fe fp,
    current_continuous_days srow sup sd = Ret cd ∧
    sign_reward env cd sup = Ret (fe, fp) ∧
    w' = mkWorld (committed (db w) uid sd sup cd fe fp)
           (trace w ++ SelectLog :: SelectSummary :: write_sequence srow).
Proof.
  intros Hs sd sup srow.
  destruct (sign_cases env uid d w) as [(_ & _ & H) | [(w0 & H & _) | (Hk & Hok & H)]].
  - rewrite H in Hs. discriminate.
  - rewrite H in Hs. discriminate.
  - split; [assumption|]. split; [assumption|].
    destruct H as (cd & fe & fp & Hcd & Hrw & H).
    exists cd, fe, fp. repeat split; try assumption.
    rewrite H in Hs. injection Hs as <-. reflexivity.
Qed.

(** A call that does not succeed leaves the storage as it was. *)
Lemma sign_not_success_db env uid d w :
  (sign env uid d w).1 ≠ Ret 1 → db (sign env uid d w).2 = db w.
Proof.
  intros Hne.
  destruct (sign_cases env uid d w) as [(_ & _ & H) | [(w0 & H & Hdb & _) | (_ & _ & H)]].
  - rewrite H. reflexivity.
  - rewrite H. assumption.
  - destruct H as (cd & fe & fp & _ & _ & H). rewrite H in Hne. contradiction.
Qed.


(** ** Reward (C2) *)

Lemma randint_drawn (a b r : Z) :
  a ≤ b → ∃ v, randint a b r = Ret v ∧ drawn a b r v.
Proof.
  intros Hab. unfold randint, drawn.
  destruct (b <? a) eqn:Hlt; [apply Z.ltb_lt in Hlt; lia|].
  eexists. split; [reflexivity|].
  pose proof (Z.mod_pos_bound r (b - a + 1)). lia.
Qed.

(** The reward as the draws of the call make it. *)
Lemma sign_reward_draws env streak sup :
  ∃ base_exp base_point bonus_exp bonus_point,
    drawn 5 50 (entropy env 0%nat) base_exp ∧
    drawn 200 2000 (entropy env 1%nat) base_point ∧
    (sup = true ∨ streak ≤ 1 → bonus_exp = 0 ∧ bonus_point = 0) ∧
    (sup = false → 1 < streak →
       let d := Z.min streak 30 in
       drawn (8 * (d - 1)) (11 * (d - 1)) (entropy env 2%nat) bonus_exp ∧
       drawn (500 * (d - 1)) (1000 * (d - 1)) (entropy env 3%nat) bonus_point) ∧
    sign_reward env streak sup =
      Ret (if sup then (base_exp / 2, base_point / 2)
           else (base_exp + bonus_exp, base_point + bonus_point)).
Proof.
  unfold sign_reward.
  destruct (randint_drawn 5 50 (entropy env 0%nat)) as (be & -> & Hbe); [lia|].
  destruct (randint_drawn 200 2000 (entropy env 1%nat)) as (bp & -> & Hbp); [lia|].
  simpl.
  assert (0 ≤ be ∧ 0 ≤ bp) as [? ?] by (unfold drawn in *; lia).
  destruct (1 <? streak) eqn:Hst; [apply Z.ltb_lt in Hst | apply Z.ltb_ge in Hst].
  - destruct sup; simpl.
    + exists be, bp, 0, 0. rewrite !Z.add_0_r, !half_floor by lia.
      repeat split; try assumption; try discriminate; apply Hbe || apply Hbp.
    + set (df := Z.min streak 30).
      assert (Hdf : 2 ≤ df) by (unfold df; lia).
      replace ((df - 1) * 8) with (8 * (df - 1)) by lia.
      replace ((df - 1) * 11) with (11 * (df - 1)) by lia.
      replace ((df - 1) * 500) with (500 * (df - 1)) by lia.
      replace ((df - 1) * 1000) with (1000 * (df - 1)) by lia.
      destruct (randint_drawn (8 * (df - 1)) (11 * (df - 1)) (entropy env 2%nat))
        as (xe & -> & Hxe); [lia|].
      destruct (randint_drawn (500 * (df - 1)) (1000 * (df - 1)) (entropy env 3%nat))
        as (xp & -> & Hxp); [lia|].
      simpl. exists be, bp, xe, xp. fold df.
      split; [assumption|]. split; [assumption|].
      split; [intros [?|?]; [discriminate | lia]|].
      split; [intros _ _; split; assumption | reflexivity].
  - simpl. destruct sup; simpl.
    + exists be, bp, 0, 0. rewrite !Z.add_0_r, !half_floor by lia.
      split; [assumption|]. split; [assumption|].
      split; [auto|]. split; [discriminate | reflexivity].
    + exists be, bp, 0, 0.
      split; [assumption|]. split; [assumption|].
      split; [auto|]. split; [intros _ ?; lia | reflexivity].
Qed.

(** Every reward of the ranges is the reward for some outputs of the
    generator. *)
Lemma sign_reward_onto t f streak sup base_exp base_point bonus_exp bonus_point :
  5 ≤ base_exp ≤ 50 → 200 ≤ base_point ≤ 2000 →
  (if sup || (streak <=? 1) then bonus_exp = 0 ∧ bonus_point = 0
   else let d := Z.min streak 30 in
        8 * (d - 1) ≤ bonus_exp ≤ 11 * (d - 1) ∧
        500 * (d - 1) ≤ bonus_point ≤ 1000 * (d - 1)) →
  sign_reward
    (mkEnv t (outputs_for streak base_exp base_point bonus_exp bonus_point) f)
    streak sup
  = Ret (if sup then (base_exp / 2, base_point / 2)
         else (base_exp + bonus_exp, base_point + bonus_point)).
Proof.
  intros Hbe Hbp Hbonus. unfold sign_reward. cbn [entropy outputs_for].
  rewrite (randint_onto 5 50 base_exp Hbe), (randint_onto 200 2000 base_point Hbp).
  cbn [mbind outcome_bind].
  destruct sup; cbn [negb orb] in *.
  - rewrite andb_false_r. cbn. destruct Hbonus as [-> ->].
    rewrite !Z.add_0_r, !half_floor by lia. reflexivity.
  - rewrite andb_true_r.
    destruct (streak <=? 1) eqn:Hle.
    + apply Z.leb_le in Hle. destruct Hbonus as [-> ->].
      destruct (1 <? streak) eqn:Hlt; [apply Z.ltb_lt in Hlt; lia|]. reflexivity.
    + apply Z.leb_gt in Hle.
      destruct (1 <? streak) eqn:Hlt; [|apply Z.ltb_ge in Hlt; lia].
      cbv zeta in Hbonus. cbv zeta.
      rewrite (randint_onto ((Z.min streak 30 - 1) * 8) ((Z.min streak 30 - 1) * 11)
                 bonus_exp) by lia.
      cbn [mbind outcome_bind].
      rewrite (randint_onto ((Z.min streak 30 - 1) * 500) ((Z.min streak 30 - 1) * 1000)
                 bonus_point) by lia.
      reflexivity.
Qed.

(** A call commits whenever the key is free, the statements after the
    lookup do not fault and the streak computation does not raise. *)
Lemma sign_succeeds env uid d w streak :
  let sd := credited_date env d in
  let sup := is_supplement env d in
  let srow := userSignSummary (db w) !! uid in
  find_log uid sd (db w) = None →
  (∀ s, s ∈ SelectSummary :: write_sequence srow → faulty env s = false) →
  current_continuous_days srow sup sd = Ret streak →
  ∃ fe fp,
    sign_reward env streak sup = Ret (fe, fp) ∧
    sign env uid d w =
      (Ret 1, mkWorld (committed (db w) uid sd sup streak fe fp)
                (trace w ++ SelectLog :: SelectSummary :: write_sequence srow)).
Proof.
  intros sd sup srow Hfree Hok Hcd.
  destruct (sign_reward_shape env streak sup) as (fe & fp & Hrw & _).
  exists fe, fp. split; [assumption|].
  rewrite sign_unfold. simpl. fold sd sup srow.
  rewrite Hfree. rewrite (bool_decide_false (None ≠ None)) by (intros H; apply H; reflexivity).
  rewrite andb_false_r.
  rewrite (Hok SelectSummary) by (apply elem_of_cons; auto).
  rewrite Hcd, Hrw.
  pose proof (sign_transaction_ok env uid sd sup streak fe fp
                (mkWorld (db w) ((trace w ++ [SelectLog]) ++ [SelectSummary]))) as Ht.
  cbn [db trace] in Ht. fold srow in Ht. rewrite Ht.
  - rewrite <- !app_assoc. reflexivity.
  - assumption.
  - intros s Hs. apply Hok. apply elem_of_cons. auto.
Qed.

(** C2. For every successful sign call the granted reward, which is the
    pair written to the new log row and added to the balances, is base
    plus bonus: base exp is drawn uniformly from [5,50] and base point from
    [200,2000]; the bonus is zero unless the event is no supplement and the
    streak exceeds 1, and is then, with d = min(streak, 30), drawn from
    [8(d-1), 11(d-1)] for exp and from [500(d-1), 1000(d-1)] for points; a
    supplement grants floor(base/2) of each, with no bonus. The draws reach
    the whole of their ranges: every such base and bonus is granted by the
    same call for some outputs of the generator. *)
Theorem sign_grants_base_plus_bonus env uid d w w' :
  sign env uid d w = (Ret 1, w') →
  ∃ streak,
    current_continuous_days (userSignSummary (db w) !! uid)
      (is_supplement env d) (credited_date env d) = Ret streak ∧
    (∃ base_exp base_point bonus_exp bonus_point granted_exp granted_point,
       drawn 5 50 (entropy env 0%nat) base_exp ∧
       drawn 200 2000 (entropy env 1%nat) base_point ∧
       (is_supplement env d = true ∨ streak ≤ 1 →
        bonus_exp = 0 ∧ bonus_point = 0) ∧
       (is_supplement env d = false → 1 < streak →
        let days_factor := Z.min streak 30 in
        drawn (8 * (days_factor - 1)) (11 * (days_factor - 1))
          (entropy env 2%nat) bonus_exp ∧
        drawn (500 * (days_factor - 1)) (1000 * (days_factor - 1))
          (entropy env 3%nat) bonus_point) ∧
       (is_supplement env d = false →
        granted_exp = base_exp + bonus_exp ∧
        granted_point = base_point + bonus_point) ∧
       (is_supplement env d = true →
        granted_exp = base_exp / 2 ∧ granted_point = base_point / 2) ∧
       userSignLog (db w') =
         mkLogRow uid (credited_date env d) (is_supplement env d)
           granted_exp granted_point :: userSignLog (db w) ∧
       userExp (db w') !! uid
         = Some (default 0 (userExp (db w) !! uid) + granted_exp) ∧
       userPoint (db w') !! uid
         = Some (default 0 (userPoint (db w) !! uid) + granted_point)) ∧
    (∀ base_exp base_point bonus_exp bonus_point,
       5 ≤ base_exp ≤ 50 → 200 ≤ base_point ≤ 2000 →
       (if is_supplement env d || (streak <=? 1)
        then bonus_exp = 0 ∧ bonus_point = 0
        else let days_factor := Z.min streak 30 in
             8 * (days_factor - 1) ≤ bonus_exp ≤ 11 * (days_factor - 1) ∧
             500 * (days_factor - 1) ≤ bonus_point ≤ 1000 * (days_factor - 1)) →
       ∃ outputs w'',
         sign (mkEnv (today env) outputs (faulty env)) uid d w = (Ret 1, w'') ∧
         userSignLog (db w'') =
           mkLogRow uid (credited_date env d) (is_supplement env d)
             (if is_supplement env d then base_exp / 2 else base_exp + bonus_exp)
             (if is_supplement env d then base_point / 2
              else base_point + bonus_point)
           :: userSignLog (db w)).
Proof.
  intros Hs.
  destruct (sign_success_inv _ _ _ _ _ Hs)
    as (Hfree & Hok & cd & fe & fp & Hcd & Hrw & ->).
  exists cd. split; [assumption|]. split.
  - destruct (sign_reward_draws env cd (is_supplement env d))
      as (be & bp & xe & xp & Hbe & Hbp & Hzero & Hbonus & Hrw').
    rewrite Hrw in Hrw'.
    exists be, bp, xe, xp, fe, fp.
    split; [assumption|]. split; [assumption|]. split; [assumption|].
    split; [assumption|].
    split; [intros Hsup; rewrite Hsup in Hrw'; injection Hrw' as -> ->; auto|].
    split; [intros Hsup; rewrite Hsup in Hrw'; injection Hrw' as -> ->; auto|].
    simpl. rewrite !lookup_insert_eq. auto.
  - intros be bp xe xp Hbe Hbp Hbonus.
    set (env' := mkEnv (today env) (outputs_for cd be bp xe xp) (faulty env)).
    destruct (sign_succeeds env' uid d w cd Hfree Hok Hcd)
      as (fe' & fp' & Hrw' & Hs').
    exists (outputs_for cd be bp xe xp). eexists. split; [exact Hs'|].
    change (is_supplement env' d) with (is_supplement env d) in *.
    change (credited_date env' d) with (credited_date env d) in *.
    unfold env' in Hrw'.
    rewrite (sign_reward_onto _ _ cd (is_supplement env d) be bp xe xp Hbe Hbp Hbonus)
      in Hrw'.
    simpl. destruct (is_supplement env d); injection Hrw' as <- <-; reflexivity.
Qed.

Lemma sign_grants_base_plus_bonus_witness :
  (∃ bonus_exp bonus_point,
     drawn 16 22 7 bonus_exp ∧ drawn 1000 2000 7 bonus_point ∧
     userSignLog (db (sign (calm (mkDate 2025 5 3) 7) "u1" "" two_day_streak).2) =
       mkLogRow "u1" "2025-05-03" false (12 + bonus_exp) (207 + bonus_point)
         :: userSignLog (db two_day_streak)) ∧
  (∃ outputs w'',
     sign (mkEnv (mkDate 2025 5 3) outputs no_faults) "u1" "" two_day_streak
       = (Ret 1, w'') ∧
     userSignLog (db w'') =
       mkLogRow "u1" "2025-05-03" false (50 + 22) (2000 + 2000)
         :: userSignLog (db two_day_streak)) ∧
  (∃ outputs w'',
     sign (mkEnv (mkDate 2025 5 3) outputs no_faults) "u1" "2025-04-20" two_day_streak
       = (Ret 1, w'') ∧
     userSignLog (db w'') =
       mkLogRow "u1" "2025-04-20" true (49 / 2) (1999 / 2)
         :: userSignLog (db two_day_streak)).
Proof.
  split; [|split].
  - destruct (sign_grants_base_plus_bonus (calm (mkDate 2025 5 3) 7) "u1" ""
                two_day_streak
                (sign (calm (mkDate 2025 5 3) 7) "u1" "" two_day_streak).2)
      as (streak & Hcd & (be & bp & xe & xp & ge & gp & Hbe & Hbp & _ & Hbonus
                          & Hsum & _ & Hlog & _) & _).
    + vm_compute. reflexivity.
    + vm_compute in Hcd. injection Hcd as <-.
      destruct (Hbonus eq_refl ltac:(lia)) as [Hxe Hxp].
      destruct (Hsum eq_refl) as [-> ->].
      assert (be = 12) as -> by (destruct Hbe as [_ Hbe]; change (be - 5 = 7) in Hbe; lia).
      assert (bp = 207) as -> by (destruct Hbp as [_ Hbp]; change (bp - 200 = 7) in Hbp; lia).
      exists xe, xp. split; [exact Hxe|]. split; [exact Hxp | exact Hlog].
  - destruct (sign_grants_base_plus_bonus (calm (mkDate 2025 5 3) 7) "u1" ""
                two_day_streak
                (sign (calm (mkDate 2025 5 3) 7) "u1" "" two_day_streak).2)
      as (streak & Hcd & _ & Honto).
    + vm_compute. reflexivity.
    + vm_compute in Hcd. injection Hcd as <-.
      apply (Honto 50 2000 22 2000); [lia | lia | simpl; lia].
  - destruct (sign_grants_base_plus_bonus (calm (mkDate 2025 5 3) 7) "u1"
                "2025-04-20" two_day_streak
                (sign (calm (mkDate 2025 5 3) 7) "u1" "2025-04-20" two_day_streak).2)
      as (streak & Hcd & _ & Honto).
    + vm_compute. reflexivity.
    + exact (Honto 49 1999 0 0 ltac:(lia) ltac:(lia) (conj eq_refl eq_refl)).
Defined.

(** ** Streak (C3) *)

(** C3. Every sign call computes its streak from the user's stored summary
    row, from whether the call is a supplement and from the date it
    credits: the streak is 1 when the user has no summary row or the event
    is a supplement; otherwise, when the stored lastSignDate is the
    credited date minus one day, it is the stored continuousDays plus 1,
    and in every other case it is 1. A call that succeeds has computed a
    streak, has drawn the reward it writes to the log for that streak, and
    has stored that streak as continuousDays; a call whose streak
    computation raises does not succeed and leaves the storage as it
    was. *)
Theorem streak_of_sign_in env uid d w :
  let signDate := credited_date env d in
  let isSupplement := is_supplement env d in
  let summary_row := userSignSummary (db w) !! uid in
  let streak := current_continuous_days summary_row isSupplement signDate in
  (summary_row = None ∨ isSupplement = true → streak = Ret 1) ∧
  (∀ row day_credited day_before,
     summary_row = Some row → isSupplement = false →
     strptime signDate = Some day_credited →
     minus_one_day day_credited = Some day_before →
     signDate = strftime (today env) ∧
     (lastSignDate row = Some (strftime day_before) →
      streak = Ret (continuousDays row + 1)) ∧
     (lastSignDate row ≠ Some (strftime day_before) → streak = Ret 1)) ∧
  (∀ w', sign env uid d w = (Ret 1, w') →
     ∃ continuous_days granted_exp granted_point row',
       streak = Ret continuous_days ∧
       sign_reward env continuous_days isSupplement
         = Ret (granted_exp, granted_point) ∧
       userSignLog (db w') =
         mkLogRow uid signDate isSupplement granted_exp granted_point
           :: userSignLog (db w) ∧
       userSignSummary (db w') !! uid = Some row' ∧
       continuousDays row' = continuous_days ∧
       (∀ row, summary_row = Some row → isSupplement = false →
          ∃ day_credited day_before,
            strptime signDate = Some day_credited ∧
            minus_one_day day_credited = Some day_before)) ∧
  (∀ e, streak = Raise e →
     ∃ r w', sign env uid d w = (Ret r, w') ∧ r ≠ 1 ∧ db w' = db w).
Proof.
  intros sd sup srow streak. subst streak.
  split; [|split; [|split]].
  - intros [-> | ->]; [reflexivity|].
    destruct srow; reflexivity.
  - intros row dc dp -> Hsup Hparse Hprev. split.
    + subst sup. unfold is_supplement in Hsup. fold sd in Hsup.
      apply negb_false_iff, bool_decide_eq_true in Hsup. assumption.
    + unfold current_continuous_days. rewrite Hsup. cbn [negb].
      rewrite Hparse, Hprev. split; intros Hlast.
      * rewrite bool_decide_true by assumption. reflexivity.
      * rewrite bool_decide_false by assumption. reflexivity.
  - intros w' Hs.
    destruct (sign_success_inv _ _ _ _ _ Hs)
      as (_ & _ & cd & fe & fp & Hcd & Hrw & ->).
    fold sd sup srow in Hcd, Hrw |- *.
    exists cd, fe, fp. eexists.
    split; [assumption|]. split; [assumption|]. split; [reflexivity|].
    split; [cbn [db userSignSummary committed]; apply lookup_insert_eq|].
    split.
    { unfold new_summary. subst srow.
      destruct (userSignSummary (db w) !! uid); [reflexivity|].
      cbn in Hcd. injection Hcd as <-. reflexivity. }
    intros row Hrow Hsup. rewrite Hrow, Hsup in Hcd.
    unfold current_continuous_days in Hcd. cbn [negb] in Hcd.
    destruct (strptime sd) as [dc|]; [|discriminate].
    destruct (minus_one_day dc) as [dp|] eqn:Hdp; [|discriminate].
    exists dc, dp. split; [reflexivity | exact Hdp].
  - intros e He.
    destruct (sign_cases env uid d w)
      as [(_ & _ & Hs) | [(w0 & Hs & Hdb & _) | (_ & _ & cd & fe & fp & Hcd & _)]].
    + eexists 2, _. split; [exact Hs|]. split; [lia | reflexivity].
    + exists 0, w0. split; [exact Hs|]. split; [lia | assumption].
    + fold sd sup srow in Hcd. rewrite He in Hcd. discriminate.
Qed.

Lemma streak_of_sign_in_witness :
  (∃ row',
     userSignLog (db (sign (calm (mkDate 2025 5 3) 7) "u1" "" two_day_streak).2) =
       mkLogRow "u1" "2025-05-03" false 28 1214 :: userSignLog (db two_day_streak) ∧
     userSignSummary (db (sign (calm (mkDate 2025 5 3) 7) "u1" "" two_day_streak).2)
       !! "u1" = Some row' ∧
     continuousDays row' = 3) ∧
  current_continuous_days (userSignSummary (db two_day_streak) !! "u1") false
    "2025-05-04" = Ret 1 ∧
  current_continuous_days (userSignSummary (db two_day_streak) !! "u1") true
    "2025-04-20" = Ret 1 ∧
  current_continuous_days (userSignSummary (db initial_world) !! "u1") false
    "2025-05-01" = Ret 1.
Proof.
  split; [|split; [|split]].
  - destruct (streak_of_sign_in (calm (mkDate 2025 5 3) 7) "u1" "" two_day_streak)
      as (_ & Hnext & Hused & _).
    destruct (Hused (sign (calm (mkDate 2025 5 3) 7) "u1" "" two_day_streak).2)
      as (cd & ge & gp & row' & Hcd & Hrw & Hlog & Hsum & Hcont & _).
    { vm_compute. reflexivity. }
    destruct (Hnext (mkSummaryRow 2 "2025-05" 2 (Some "2025-05-02") 2 0)
                (mkDate 2025 5 3) (mkDate 2025 5 2)
                eq_refl eq_refl eq_refl eq_refl)
      as (_ & Hplus & _).
    rewrite (Hplus eq_refl) in Hcd. injection Hcd as <-.
    vm_compute in Hrw. injection Hrw as <- <-.
    exists row'. split; [exact Hlog|]. split; [exact Hsum | exact Hcont].
  - destruct (streak_of_sign_in (calm (mkDate 2025 5 4) 7) "u1" "" two_day_streak)
      as (_ & Hnext & _).
    destruct (Hnext (mkSummaryRow 2 "2025-05" 2 (Some "2025-05-02") 2 0)
                (mkDate 2025 5 4) (mkDate 2025 5 3)
                eq_refl eq_refl eq_refl eq_refl)
      as (_ & _ & Hone).
    apply Hone. vm_compute. discriminate.
  - destruct (streak_of_sign_in (calm (mkDate 2025 5 4) 7) "u1" "2025-04-20"
                two_day_streak) as (Hone & _).
    apply Hone. right. reflexivity.
  - destruct (streak_of_sign_in (calm (mkDate 2025 5 1) 7) "u1" "" initial_world)
      as (Hone & _).
    apply Hone. left. reflexivity.
Defined.

(** In [sign] a sign-in that is no supplement credits the day of the
    clock, so its date always parses. *)
Lemma streak_of_today env row day_before :
  valid_date (today env) = true →
  minus_one_day (today env) = Some day_before →
  current_continuous_days (Some row) false (strftime (today env)) =
    Ret (if bool_decide (lastSignDate row = Some (strftime day_before))
         then continuousDays row + 1 else 1).
Proof.
  intros Hv Hp. unfold current_continuous_days.
  rewrite (CalendarFacts.strptime_strftime _ Hv), Hp.
  cbn [negb]. case_bool_decide; reflexivity.
Qed.

(** ** Supplements and the stored streak (C4) *)

(** C4, as the spec states it, fails: after a two-day streak the stored
    continuousDays is 2, and a supplement for 20 April succeeds and leaves
    it at 1. *)
Lemma supplement_changes_continuousDays :
  continuousDays <$> (userSignSummary (db two_day_streak) !! "u1") = Some 2 ∧
  is_supplement (calm (mkDate 2025 5 2) 7) "2025-04-20" = true ∧
  (sign (calm (mkDate 2025 5 2) 7) "u1" "2025-04-20" two_day_streak).1 = Ret 1 ∧
  continuousDays <$>
    (userSignSummary
       (db (sign (calm (mkDate 2025 5 2) 7) "u1" "2025-04-20" two_day_streak).2)
     !! "u1")
  = Some 1.
Proof. vm_compute. repeat split; reflexivity. Qed.

(** C4, amended. A successful supplement sign-in by a user who has a
    summary row stores continuousDays = 1, whatever it was, sets
    lastSignDate to the credited date and adds 1 to supplementCount. *)
Theorem supplement_sets_continuousDays_to_one env uid d w w' row :
  userSignSummary (db w) !! uid = Some row →
  is_supplement env d = true →
  sign env uid d w = (Ret 1, w') →
  ∃ row', userSignSummary (db w') !! uid = Some row' ∧
    continuousDays row' = 1 ∧
    lastSignDate row' = Some (credited_date env d) ∧
    supplementCount row' = supplementCount row + 1.
Proof.
  intros Hrow Hsup Hs.
  destruct (sign_success_inv _ _ _ _ _ Hs) as (_ & _ & cd & fe & fp & Hcd & _ & ->).
  rewrite Hrow, Hsup in Hcd. simpl in Hcd. injection Hcd as <-.
  eexists. simpl. rewrite lookup_insert_eq. split; [reflexivity|].
  rewrite Hrow, Hsup. simpl. auto.
Qed.

Lemma supplement_sets_continuousDays_to_one_witness :
  ∃ row', userSignSummary
            (db (sign (calm (mkDate 2025 5 2) 7) "u1" "2025-04-20" two_day_streak).2)
          !! "u1" = Some row' ∧
    continuousDays row' = 1 ∧
    lastSignDate row' = Some "2025-04-20" ∧
    supplementCount row' = 0 + 1.
Proof.
  apply (supplement_sets_continuousDays_to_one (calm (mkDate 2025 5 2) 7) "u1"
           "2025-04-20" two_day_streak _
           (mkSummaryRow 2 "2025-05" 2 (Some "2025-05-02") 2 0));
    vm_compute; reflexivity.
Defined.

(** ** Signing twice (C5) *)

Lemma find_log_committed st uid sd sup cd fe fp :
  find_log uid sd (committed st uid sd sup cd fe fp)
  = Some (mkLogRow uid sd sup fe fp).
Proof.
  unfold find_log, committed, log_key. simpl.
  rewrite !bool_decide_true by reflexivity. reflexivity.
Qed.

(** When the clock shows a real day other than the first one, the streak
    computation of [sign] does not raise. *)
Lemma current_continuous_days_total env d srow :
  valid_date (today env) = true → today env ≠ mkDate 1 1 1 →
  ∃ cd, current_continuous_days srow (is_supplement env d) (credited_date env d)
        = Ret cd.
Proof.
  intros Hv Hne. unfold is_supplement.
  destruct srow as [row|]; [|simpl; eauto].
  case_bool_decide as Htoday; [|simpl; eauto].
  rewrite Htoday. change (negb true) with false.
  destruct (CalendarFacts.minus_one_day_Some _ Hv Hne) as (p & Hp).
  rewrite (streak_of_today env row p Hv Hp). eauto.
Qed.

(** A call succeeds when the key is free, the engine does not fault and
    the clock shows a real day. *)
Lemma sign_success env uid d w :
  find_log uid (credited_date env d) (db w) = None →
  (∀ s, faulty env s = false) →
  valid_date (today env) = true → today env ≠ mkDate 1 1 1 →
  ∃ w', sign env uid d w = (Ret 1, w').
Proof.
  intros Hfree Hok Hv Hne.
  destruct (sign_cases env uid d w)
    as [(_ & Hk & _) | [(w0 & _ & _ & _ & _ & Hwhy) | (_ & _ & cd & fe & fp & _ & _ & H)]].
  - contradiction.
  - destruct Hwhy as [(s & Hs) | (e & He)].
    + rewrite Hok in Hs. discriminate.
    + destruct (current_continuous_days_total env d
                  (userSignSummary (db w) !! uid) Hv Hne) as (cd & Hcd).
      rewrite Hcd in He. discriminate.
  - eauto.
Qed.

(** After a successful call the same call is answered "already signed"
    without touching the storage. *)
Lemma sign_again env1 env2 uid d w w1 :
  sign env1 uid d w = (Ret 1, w1) →
  faulty env2 SelectLog = false →
  credited_date env2 d = credited_date env1 d →
  sign env2 uid d w1 = (Ret 2, mkWorld (db w1) (trace w1 ++ [SelectLog])).
Proof.
  intros Hs Hf Hdate.
  destruct (sign_success_inv _ _ _ _ _ Hs) as (_ & _ & cd & fe & fp & _ & _ & ->).
  apply sign_already_signed; [assumption|].
  rewrite Hdate. simpl. rewrite find_log_committed. discriminate.
Qed.

(** C5. For a (user, date) not yet signed, with a working engine, two
    calls of sign with the same arguments, one after the other, return
    Success and then AlreadySigned, and the second leaves the log, the
    summaries and the balances as the first left them. With the default
    date both calls are made on the same day. *)
Theorem sign_twice env1 env2 uid d w :
  find_log uid (credited_date env1 d) (db w) = None →
  (∀ s, faulty env1 s = false) → faulty env2 SelectLog = false →
  valid_date (today env1) = true → today env1 ≠ mkDate 1 1 1 →
  d ≠ "" ∨ today env2 = today env1 →
  ∃ w1 w2,
    sign env1 uid d w = (Ret 1, w1) ∧
    sign env2 uid d w1 = (Ret 2, w2) ∧
    db w2 = db w1.
Proof.
  intros Hfree Hok1 Hok2 Hv Hne Hsame.
  destruct (sign_success env1 uid d w Hfree Hok1 Hv Hne) as (w1 & Hs1).
  exists w1, (mkWorld (db w1) (trace w1 ++ [SelectLog])).
  split; [assumption|]. split; [|reflexivity].
  apply (sign_again env1 env2 uid d w w1 Hs1 Hok2).
  unfold credited_date. destruct Hsame as [Hd | ->]; [|reflexivity].
  rewrite bool_decide_false by assumption. reflexivity.
Qed.

Lemma sign_twice_witness :
  ∃ w1 w2,
    sign (calm (mkDate 2025 5 1) 7) "u1" "" initial_world = (Ret 1, w1) ∧
    sign (calm (mkDate 2025 5 1) 9) "u1" "" w1 = (Ret 2, w2) ∧
    db w2 = db w1.
Proof.
  apply (sign_twice (calm (mkDate 2025 5 1) 7) (calm (mkDate 2025 5 1) 9)
           "u1" "" initial_world).
  - reflexivity.
  - reflexivity.
  - reflexivity.
  - reflexivity.
  - discriminate.
  - right. reflexivity.
Defined.

(** ** Failure inside the transaction (C6) *)

Lemma issued_app w tr l : issued w (mkWorld tr (trace w ++ l)) = l.
Proof. unfold issued. simpl. apply drop_app_length. Qed.

(** C6. When a statement of the write sequence is issued and fails, the
    ledger updates among them, the call returns Failure, no row is added
    to userSignLog and userSignSummary is not changed: the storage is what
    it was before the call. *)
Theorem failed_write_has_no_effect env uid d w s :
  s ∈ write_sequence (userSignSummary (db w) !! uid) →
  s ∈ issued w (sign env uid d w).2 →
  faulty env s = true →
  (sign env uid d w).1 = Ret 0 ∧ db (sign env uid d w).2 = db w.
Proof.
  intros Hws Hiss Hf.
  destruct (sign_cases env uid d w)
    as [(_ & _ & H) | [(w0 & H & Hdb & _) | (_ & Hok & _)]].
  - rewrite H in Hiss. simpl in Hiss. rewrite issued_app in Hiss.
    apply list_elem_of_singleton in Hiss as ->.
    exfalso. unfold write_sequence in Hws.
    rewrite !elem_of_cons, elem_of_nil in Hws.
    destruct (userSignSummary (db w) !! uid); intuition discriminate.
  - rewrite H. auto.
  - rewrite Hok in Hf; [discriminate|]. apply elem_of_cons. auto.
Qed.

Lemma failed_write_has_no_effect_witness :
  (sign (mkEnv (mkDate 2025 5 3) (λ _, 7) (faults_on [SetPoint])) "u1" ""
     two_day_streak).1 = Ret 0 ∧
  db (sign (mkEnv (mkDate 2025 5 3) (λ _, 7) (faults_on [SetPoint])) "u1" ""
        two_day_streak).2 = db two_day_streak.
Proof.
  apply (failed_write_has_no_effect
           (mkEnv (mkDate 2025 5 3) (λ _, 7) (faults_on [SetPoint])) "u1" ""
           two_day_streak SetPoint).
  - apply list_elem_of_In. vm_compute. tauto.
  - apply list_elem_of_In. vm_compute. tauto.
  - reflexivity.
Defined.

(** ** The result of [sign] (C7) *)

(** C7, as the spec states it, fails: the result of a successful call is
    the bare code 1. Two calls that differ only in the random draws return
    the same result and grant different rewards. *)
Lemma success_carries_no_reward :
  (sign (calm (mkDate 2025 5 1) 7) "u1" "" initial_world).1 = Ret 1 ∧
  (sign (calm (mkDate 2025 5 1) 8) "u1" "" initial_world).1 = Ret 1 ∧
  userSignLog (db (sign (calm (mkDate 2025 5 1) 7) "u1" "" initial_world).2)
    = [mkLogRow "u1" "2025-05-01" false 12 207] ∧
  userSignLog (db (sign (calm (mkDate 2025 5 1) 8) "u1" "" initial_world).2)
    = [mkLogRow "u1" "2025-05-01" false 13 208].
Proof. vm_compute. repeat split; reflexivity. Qed.

(** The lookup of a reward on a working engine. *)
Lemma getUserSignRewardByDate_run env uid date w :
  (∀ s, faulty env s = false) →
  (getUserSignRewardByDate env uid date w).1 =
    Ret (match find_log uid date (db w) with
         | Some r => (log_exp r, log_point r)
         | None => (0, 0)
         end).
Proof.
  intros Hok. unfold getUserSignRewardByDate, _transaction. unfold_M.
  rewrite !Hok. simpl.
  destruct (find_log uid date (db w)); reflexivity.
Qed.

(** C7, amended. sign returns one of three integer codes: 2 exactly when
    the lookup of hasSigned works and finds a row for (user, date), 1 when
    the sign-in committed, 0 when an exception was caught, and then an
    engine fault or a date computation that raised is the cause. The code
    1 carries no reward: the granted pair is in the new userSignLog row,
    where getUserSignRewardByDate reads it. *)
Theorem sign_returns_a_code env uid d w :
  let r := (sign env uid d w).1 in
  let w' := (sign env uid d w).2 in
  let sd := credited_date env d in
  (r = Ret 0 ∨ r = Ret 1 ∨ r = Ret 2) ∧
  (r = Ret 2 ↔ faulty env SelectLog = false ∧ find_log uid sd (db w) ≠ None) ∧
  (r = Ret 0 →
     (∃ s, faulty env s = true) ∨
     ∃ e, current_continuous_days (userSignSummary (db w) !! uid)
            (is_supplement env d) sd = Raise e) ∧
  (r = Ret 1 →
     ∃ granted_exp granted_point,
       userSignLog (db w') =
         mkLogRow uid sd (is_supplement env d) granted_exp granted_point
           :: userSignLog (db w) ∧
       ∀ env', (∀ s, faulty env' s = false) →
         (getUserSignRewardByDate env' uid sd w').1 = Ret (granted_exp, granted_point)).
Proof.
  intros r w' sd. subst r w'.
  destruct (sign_cases env uid d w)
    as [(Hf & Hk & H) | [(w0 & H & _ & _ & Hpass & Hwhy) |
                         (Hk & _ & cd & fe & fp & _ & _ & H)]];
    rewrite H; simpl; fold sd.
  - split; [auto|]. split; [tauto|]. split; discriminate.
  - split; [auto|]. split; [|split; [auto | discriminate]].
    split; [discriminate|]. intros [Hf Hk].
    destruct Hpass as [Hf' | Hfree]; [congruence | contradiction].
  - split; [auto|]. split; [|split; [discriminate|]].
    + split; [discriminate|]. intros [_ Hk']. contradiction.
    + intros _. exists fe, fp. split; [reflexivity|].
      intros env' Hok. rewrite (getUserSignRewardByDate_run env' uid sd _ Hok).
      simpl. rewrite find_log_committed. reflexivity.
Qed.

Lemma sign_returns_a_code_witness :
  (getUserSignRewardByDate (calm (mkDate 2025 5 9) 0) "u1" "2025-05-01"
     (sign (calm (mkDate 2025 5 1) 7) "u1" "" initial_world).2).1 = Ret (12, 207).
Proof.
  destruct (sign_returns_a_code (calm (mkDate 2025 5 1) 7) "u1" "" initial_world)
    as (_ & _ & _ & H).
  destruct (H eq_refl) as (ge & gp & Hlog & Hget).
  vm_compute in Hlog. injection Hlog as <- <-.
  apply (Hget (calm (mkDate 2025 5 9) 0)). reflexivity.
Defined.

(** ** Malformed dates (C8) *)




(** ** A fault inside [hasSigned] (C10) *)

(** C10. When the query inside hasSigned raises, hasSigned returns False,
    which is also its answer for a user who has not signed on that date;
    and sign then does not return AlreadySigned, whether or not the user
    has signed. *)
Theorem hasSigned_fault_is_not_signed env env0 uid d w w0 :
  faulty env SelectLog = true →
  faulty env0 SelectLog = false → find_log uid d (db w0) = None →
  (hasSigned env uid d w).1 = Ret false ∧
  (hasSigned env0 uid d w0).1 = Ret false ∧
  db (hasSigned env uid d w).2 = db w ∧
  (sign env uid d w).1 ≠ Ret 2.
Proof.
  intros Hf Hf0 Hfree. rewrite !hasSigned_run, Hf, Hf0, Hfree. simpl.
  split; [reflexivity|]. split; [reflexivity|]. split; [reflexivity|].
  destruct (sign_cases env uid d w)
    as [(Hf' & _) | [(w1 & H & _) | (_ & _ & cd & fe & fp & _ & _ & H)]].
  - congruence.
  - rewrite H. discriminate.
  - rewrite H. discriminate.
Qed.

Lemma hasSigned_fault_is_not_signed_witness :
  find_log "u1" "2025-05-02" (db two_day_streak) ≠ None ∧
  (hasSigned (mkEnv (mkDate 2025 5 2) (λ _, 7) (faults_on [SelectLog])) "u1"
     "2025-05-02" two_day_streak).1 = Ret false ∧
  (hasSigned (calm (mkDate 2025 5 2) 7) "u1" "2025-05-02" initial_world).1
    = Ret false ∧
  (sign (mkEnv (mkDate 2025 5 2) (λ _, 7) (faults_on [SelectLog])) "u1"
     "2025-05-02" two_day_streak).1 ≠ Ret 2.
Proof.
  destruct (hasSigned_fault_is_not_signed
              (mkEnv (mkDate 2025 5 2) (λ _, 7) (faults_on [SelectLog]))
              (calm (mkDate 2025 5 2) 7) "u1" "2025-05-02"
              two_day_streak initial_world) as (H1 & H2 & _ & H3).
  - reflexivity.
  - reflexivity.
  - reflexivity.
  - split; [vm_compute; discriminate|]. auto.
Defined.

(** ** The summary and the log (C1) *)

Lemma count_user_cons uid r l :
  count_user uid (r :: l) =
    (if bool_decide (log_uid r = uid) then 1 else 0) + count_user uid l.
Proof.
  unfold count_user. rewrite filter_cons.
  case_bool_decide; case_decide; try contradiction; simpl length; lia.
Qed.

Lemma count_month_cons uid m r l :
  count_month uid m (r :: l) =
    (if bool_decide (log_uid r = uid) && bool_decide (month_of (log_signDate r) = m)
     then 1 else 0) + count_month uid m l.
Proof.
  unfold count_month. rewrite filter_cons.
  do 2 case_bool_decide; case_decide; simpl; try tauto; simpl length; lia.
Qed.

Lemma month_run_bounds uid m l :
  0 ≤ month_run uid m l ≤ count_month uid m l.
Proof.
  induction l as [|r l IH]; [unfold count_month; simpl; lia|].
  rewrite count_month_cons. simpl.
  assert (0 ≤ count_month uid m l) by (unfold count_month; lia).
  do 2 case_bool_decide; simpl; lia.
Qed.

Lemma count_month_le_user uid m l : count_month uid m l ≤ count_user uid l.
Proof.
  induction l as [|r l IH]; [reflexivity|].
  rewrite count_month_cons, count_user_cons.
  do 2 case_bool_decide; simpl; lia.
Qed.

Lemma month_run_other_month uid m m' l :
  latest_month uid l = Some m' → m' ≠ m → month_run uid m l = 0.
Proof.
  unfold latest_month. induction l as [|r l IH]; intros Hlm Hne; [reflexivity|].
  simpl in *. case_bool_decide.
  - simpl in Hlm. injection Hlm as Hlm.
    rewrite bool_decide_false by congruence. reflexivity.
  - apply IH; assumption.
Qed.

Lemma month_run_latest uid m l :
  latest_month uid l = Some m → 1 ≤ month_run uid m l.
Proof.
  unfold latest_month. induction l as [|r l IH]; intros Hlm; [discriminate|].
  simpl in *. case_bool_decide.
  - simpl in Hlm. injection Hlm as Hlm.
    rewrite bool_decide_true by assumption.
    pose proof (month_run_bounds uid m l). lia.
  - apply IH; assumption.
Qed.

(** A committed sign-in of [uid] keeps the summary of every user in
    agreement with the log. *)
Lemma committed_consistent st uid sd sup cd fe fp uid' :
  summary_consistent uid' st →
  summary_consistent uid' (committed st uid sd sup cd fe fp).
Proof.
  unfold summary_consistent, committed, latest_month. simpl. intros Hinv.
  destruct (decide (uid = uid')) as [<- | Hne].
  - rewrite lookup_insert_eq, count_user_cons. simpl.
    rewrite !bool_decide_true by reflexivity. simpl.
    destruct (userSignSummary st !! uid) as [row|]; simpl.
    + destruct Hinv as (Htot & Hmon & Hlast).
      split; [lia|]. split; [|reflexivity].
      case_bool_decide as Hm.
      * rewrite <- Hm, bool_decide_true by reflexivity. lia.
      * rewrite bool_decide_true by reflexivity.
        rewrite (month_run_other_month _ _ _ _ Hlast Hm). lia.
    + rewrite bool_decide_true by reflexivity.
      pose proof (month_run_bounds uid (month_of sd) (userSignLog st)).
      pose proof (count_month_le_user uid (month_of sd) (userSignLog st)).
      split; [lia|]. split; [lia|reflexivity].
  - rewrite lookup_insert_ne by assumption.
    rewrite count_user_cons. simpl.
    rewrite !bool_decide_false by assumption. simpl.
    destruct (userSignSummary st !! uid'); assumption.
Qed.

Lemma sign_consistent env uid d w uid' :
  summary_consistent uid' (db w) →
  summary_consistent uid' (db (sign env uid d w).2).
Proof.
  intros Hinv.
  destruct (sign_cases env uid d w)
    as [(_ & _ & H) | [(w0 & H & Hdb & _) | (_ & _ & cd & fe & fp & _ & _ & H)]];
    rewrite H; simpl.
  - assumption.
  - rewrite Hdb. assumption.
  - apply committed_consistent. assumption.
Qed.

Lemma run_calls_consistent cs w uid :
  summary_consistent uid (db w) →
  summary_consistent uid (db (run_calls cs w)).
Proof.
  revert w. induction cs as [|c cs IH]; intros w Hinv; [assumption|].
  apply IH. apply sign_consistent. assumption.
Qed.

(** C1, as the spec states it, fails in its second half: after back-fills
    of 1 May, 20 April and 2 May, all successful, the log has two rows of
    the stored month 2025-05 and monthSignDays is 1. *)
Lemma monthSignDays_is_not_the_month_count :
  call_results back_and_forth initial_world = [Ret 1; Ret 1; Ret 1] ∧
  userSignSummary (db (run_calls back_and_forth initial_world)) !! "u1"
    = Some (mkSummaryRow 3 "2025-05" 1 (Some "2025-05-02") 1 3) ∧
  count_month "u1" "2025-05"
    (userSignLog (db (run_calls back_and_forth initial_world))) = 2.
Proof. vm_compute. repeat split; reflexivity. Qed.

(** Whatever the calls, the summary agrees with the log: totalSignDays
    counts the user's rows and monthSignDays the latest run of rows of the
    stored month. *)
Lemma summary_follows_log cs uid row :
  userSignSummary (db (run_calls cs initial_world)) !! uid = Some row →
  totalSignDays row = count_user uid (userSignLog (db (run_calls cs initial_world))) ∧
  monthSignDays row =
    month_run uid (currentMonth row) (userSignLog (db (run_calls cs initial_world))) ∧
  1 ≤ monthSignDays row.
Proof.
  intros Hrow.
  assert (Hinv : summary_consistent uid (db (run_calls cs initial_world))).
  { apply run_calls_consistent. unfold summary_consistent. simpl.
    rewrite lookup_empty. reflexivity. }
  unfold summary_consistent in Hinv. rewrite Hrow in Hinv.
  destruct Hinv as (Htot & Hmon & Hlast).
  split; [assumption|]. split; [assumption|].
  pose proof (month_run_latest _ _ _ Hlast). lia.
Qed.

(** The rows of a month are the latest run plus the older rows the run
    does not reach. *)
Lemma count_month_split uid m l :
  count_month uid m l =
    month_run uid m l + count_month uid m (before_other_month uid m l).
Proof.
  induction l as [|r l IH]; [reflexivity|].
  rewrite count_month_cons. simpl.
  do 2 case_bool_decide; simpl; lia.
Qed.

(** C1, amended. After any sequence of sign calls, executed one after the
    other from the empty storage, a user's summary row has totalSignDays
    equal to the number of the user's userSignLog rows; and monthSignDays
    equal to the number of the user's rows whose date is in the stored
    currentMonth, provided none of those rows is older than a row of the
    user for another month. *)
Theorem summary_agrees_with_log cs uid row :
  userSignSummary (db (run_calls cs initial_world)) !! uid = Some row →
  totalSignDays row = count_user uid (userSignLog (db (run_calls cs initial_world))) ∧
  (count_month uid (currentMonth row)
     (before_other_month uid (currentMonth row)
        (userSignLog (db (run_calls cs initial_world)))) = 0 →
   monthSignDays row =
     count_month uid (currentMonth row)
       (userSignLog (db (run_calls cs initial_world)))).
Proof.
  intros Hrow.
  destruct (summary_follows_log cs uid row Hrow) as (Htot & Hmon & _).
  split; [assumption|]. intros Hold.
  rewrite count_month_split, Hold. lia.
Qed.

Lemma summary_agrees_with_log_witness :
  2 = count_user "u1" (userSignLog (db (run_calls two_days initial_world))) ∧
  2 = count_month "u1" "2025-05"
        (userSignLog (db (run_calls two_days initial_world))).
Proof.
  destruct (summary_agrees_with_log two_days "u1"
              (mkSummaryRow 2 "2025-05" 2 (Some "2025-05-02") 2 0)) as [Htot Hmon].
  - vm_compute. reflexivity.
  - split; [exact Htot|]. apply Hmon. vm_compute. reflexivity.
Defined.

(** * Further properties of the sign-in *)

(** ** Invariants over sequences of calls *)

(** A property of the storage that every committed sign-in keeps holds
    after any sequence of calls. *)
Lemma run_calls_preserves (P : Storage → Prop) :
  (∀ env uid d w w', P (db w) → sign env uid d w = (Ret 1, w') → P (db w')) →
  ∀ cs w, P (db w) → P (db (run_calls cs w)).
Proof.
  intros Hstep cs. induction cs as [|c cs IH]; intros w HP; [assumption|].
  apply IH. unfold run_call.
  destruct (sign_cases (call_env c) (call_uid c) (call_date c) w)
    as [(_ & _ & H) | [(w0 & H & Hdb & _) | (_ & _ & cd & fe & fp & _ & _ & H)]].
  - rewrite H. assumption.
  - rewrite H. simpl. rewrite Hdb. assumption.
  - pose proof (Hstep _ _ _ _ _ HP H) as HP'. rewrite H. assumption.
Qed.

Lemma find_log_None_keys uid sd st :
  find_log uid sd st = None → (uid, sd) ∉ log_keys (userSignLog st).
Proof.
  unfold find_log, log_keys. intros Hnone Hin.
  apply list_elem_of_fmap in Hin as (r & Heq & Hr).
  apply list_elem_of_In in Hr.
  apply (find_none _ _ Hnone) in Hr. unfold log_key in Hr.
  injection Heq as -> ->.
  rewrite !bool_decide_true in Hr by reflexivity. discriminate.
Qed.

(** X1. The primary key holds: after any sequence of calls no two rows of
    the log have the same user and the same date text. *)
Theorem log_keys_unique cs :
  NoDup (log_keys (userSignLog (db (run_calls cs initial_world)))).
Proof.
  apply (run_calls_preserves (λ st, NoDup (log_keys (userSignLog st)))).
  - intros env uid d w w' Hnd Hs.
    destruct (sign_success_inv _ _ _ _ _ Hs) as (Hfree & _ & cd & fe & fp & _ & _ & ->).
    simpl. apply NoDup_cons. split; [|assumption].
    apply find_log_None_keys. assumption.
  - simpl. apply NoDup_nil_2.
Qed.

Lemma count_supplement_cons uid r l :
  count_supplement uid (r :: l) =
    (if bool_decide (log_uid r = uid) && log_isSupplement r then 1 else 0)
    + count_supplement uid l.
Proof.
  unfold count_supplement. rewrite filter_cons.
  case_bool_decide; destruct (log_isSupplement r); case_decide;
    simpl; try tauto; simpl length; try lia.
  all: exfalso; intuition discriminate.
Qed.

Lemma current_continuous_days_values srow sup sd cd :
  current_continuous_days srow sup sd = Ret cd →
  cd = 1 ∨ ∃ row, srow = Some row ∧ sup = false ∧ cd = continuousDays row + 1.
Proof.
  unfold current_continuous_days. intros H.
  destruct srow as [row|]; [|left; congruence].
  destruct sup; simpl in H; [left; congruence|].
  destruct (strptime sd); [|discriminate].
  destruct (minus_one_day _); [|discriminate].
  case_bool_decide; injection H as <-; eauto.
Qed.

Lemma committed_tracks st uid sd sup cd fe fp uid' :
  current_continuous_days (userSignSummary st !! uid) sup sd = Ret cd →
  summary_tracks_log uid' st →
  summary_tracks_log uid' (committed st uid sd sup cd fe fp).
Proof.
  unfold summary_tracks_log, committed, latest_row. simpl. intros Hcd Hinv.
  destruct (decide (uid = uid')) as [<- | Hne].
  - rewrite lookup_insert_eq, count_supplement_cons. simpl.
    rewrite !bool_decide_true by reflexivity. simpl.
    destruct (userSignSummary st !! uid) as [row|]; simpl.
    + destruct Hinv as (Hsup & Hcont & _).
      split; [destruct sup; simpl; lia|]. split; [|eauto].
      destruct (current_continuous_days_values _ _ _ _ Hcd)
        as [-> | (row' & Hrow' & _ & ->)]; [lia|].
      injection Hrow' as <-. lia.
    + split; [|split; [lia | eauto]].
      assert (Hzero : count_supplement uid (userSignLog st) = 0).
      { unfold count_supplement. clear Hcd.
        induction (userSignLog st) as [|r l IH]; [reflexivity|].
        simpl in Hinv. rewrite filter_cons. case_bool_decide; [discriminate|].
        case_decide; [tauto|]. apply IH. assumption. }
      rewrite Hzero. destruct sup; reflexivity.
  - rewrite lookup_insert_ne by assumption.
    rewrite count_supplement_cons. simpl.
    rewrite !bool_decide_false by assumption. simpl.
    destruct (userSignSummary st !! uid'); assumption.
Qed.

Lemma run_calls_tracks cs uid :
  summary_tracks_log uid (db (run_calls cs initial_world)).
Proof.
  apply (run_calls_preserves (summary_tracks_log uid)).
  - intros env uid0 d w w' Hinv Hs.
    destruct (sign_success_inv _ _ _ _ _ Hs) as (_ & _ & cd & fe & fp & Hcd & _ & ->).
    simpl. apply committed_tracks; assumption.
  - unfold summary_tracks_log. simpl. rewrite lookup_empty. reflexivity.
Qed.

(** X2. After any sequence of calls, supplementCount of a user's summary
    row is the number of the user's log rows written as supplements. *)
Theorem supplementCount_counts_supplements cs uid row :
  userSignSummary (db (run_calls cs initial_world)) !! uid = Some row →
  supplementCount row =
    count_supplement uid (userSignLog (db (run_calls cs initial_world))).
Proof.
  intros Hrow. pose proof (run_calls_tracks cs uid) as H.
  unfold summary_tracks_log in H. rewrite Hrow in H. tauto.
Qed.

Lemma supplementCount_counts_supplements_witness :
  3 = count_supplement "u1" (userSignLog (db (run_calls back_and_forth initial_world))).
Proof.
  apply (supplementCount_counts_supplements back_and_forth "u1"
           (mkSummaryRow 3 "2025-05" 1 (Some "2025-05-02") 1 3)).
  vm_compute. reflexivity.
Defined.

(** X3. After any sequence of calls, lastSignDate and currentMonth of a
    user's summary row are the date and the month of the row the user
    signed last, whatever its calendar position. *)
Theorem summary_shows_latest_row cs uid row :
  userSignSummary (db (run_calls cs initial_world)) !! uid = Some row →
  ∃ r, latest_row uid (userSignLog (db (run_calls cs initial_world))) = Some r ∧
       lastSignDate row = Some (log_signDate r) ∧
       currentMonth row = month_of (log_signDate r).
Proof.
  intros Hrow. pose proof (run_calls_tracks cs uid) as H.
  unfold summary_tracks_log in H. rewrite Hrow in H. tauto.
Qed.

Lemma summary_shows_latest_row_witness :
  ∃ r, latest_row "u1" (userSignLog (db (run_calls back_and_forth initial_world)))
       = Some r ∧
       Some "2025-05-02" = Some (log_signDate r) ∧
       "2025-05"%string = month_of (log_signDate r).
Proof.
  apply (summary_shows_latest_row back_and_forth "u1"
           (mkSummaryRow 3 "2025-05" 1 (Some "2025-05-02") 1 3)).
  vm_compute. reflexivity.
Defined.

(** X4. After any sequence of calls, the stored streak of a user is at
    least 1 and at most the number of the user's sign-ins. *)
Theorem continuousDays_within_total cs uid row :
  userSignSummary (db (run_calls cs initial_world)) !! uid = Some row →
  1 ≤ continuousDays row ≤ totalSignDays row.
Proof.
  intros Hrow. pose proof (run_calls_tracks cs uid) as H.
  unfold summary_tracks_log in H. rewrite Hrow in H. tauto.
Qed.

Lemma continuousDays_within_total_witness : 1 ≤ 2 ≤ 2.
Proof.
  apply (continuousDays_within_total two_days "u1"
           (mkSummaryRow 2 "2025-05" 2 (Some "2025-05-02") 2 0)).
  vm_compute. reflexivity.
Defined.

(** X5. A user has a summary row exactly when the log has a row of the
    user. *)
Theorem summary_row_iff_signed cs uid :
  is_Some (userSignSummary (db (run_calls cs initial_world)) !! uid) ↔
  is_Some (latest_row uid (userSignLog (db (run_calls cs initial_world)))).
Proof.
  pose proof (run_calls_tracks cs uid) as H. unfold summary_tracks_log in H.
  destruct (userSignSummary _ !! uid) as [row|].
  - destruct H as (_ & _ & r & -> & _). split; eauto.
  - rewrite H. split; intros [? ?]; discriminate.
Qed.

(** ** Balances, other users, and the permanence of rows *)

Lemma committed_balances st uid sd sup cd fe fp uid' :
  balances_follow_log uid' st →
  balances_follow_log uid' (committed st uid sd sup cd fe fp).
Proof.
  unfold balances_follow_log, committed. simpl. intros [He Hp].
  destruct (decide (uid = uid')) as [<- | Hne].
  - rewrite !lookup_insert_eq, !bool_decide_true by reflexivity. simpl. lia.
  - rewrite !lookup_insert_ne, !bool_decide_false by assumption. simpl. lia.
Qed.

(** X6. After any sequence of calls from the empty storage, the experience
    and the points balance of a user are the sums of the rewards recorded
    in the user's log rows. *)
Theorem balances_are_log_totals cs uid :
  default 0 (userExp (db (run_calls cs initial_world)) !! uid)
    = total_exp uid (userSignLog (db (run_calls cs initial_world))) ∧
  default 0 (userPoint (db (run_calls cs initial_world)) !! uid)
    = total_point uid (userSignLog (db (run_calls cs initial_world))).
Proof.
  apply (run_calls_preserves (balances_follow_log uid)).
  - intros env uid0 d w w' Hinv Hs.
    destruct (sign_success_inv _ _ _ _ _ Hs) as (_ & _ & cd & fe & fp & _ & _ & ->).
    simpl. apply committed_balances. assumption.
  - unfold balances_follow_log. simpl. rewrite !lookup_empty. split; reflexivity.
Qed.

(** X7. A call of sign for one user leaves every other user as it was: the
    summary row, both balances and the log rows of the other user. *)
Theorem sign_leaves_other_users env uid d w uid' :
  uid' ≠ uid →
  userSignSummary (db (sign env uid d w).2) !! uid' = userSignSummary (db w) !! uid' ∧
  userExp (db (sign env uid d w).2) !! uid' = userExp (db w) !! uid' ∧
  userPoint (db (sign env uid d w).2) !! uid' = userPoint (db w) !! uid' ∧
  filter (λ r, log_uid r = uid') (userSignLog (db (sign env uid d w).2))
    = filter (λ r, log_uid r = uid') (userSignLog (db w)).
Proof.
  intros Hne.
  destruct (sign_cases env uid d w)
    as [(_ & _ & H) | [(w0 & H & Hdb & _) | (_ & _ & cd & fe & fp & _ & _ & H)]];
    rewrite H; simpl.
  - auto.
  - rewrite Hdb. auto.
  - rewrite !lookup_insert_ne by congruence.
    rewrite filter_cons_False by (simpl; congruence). auto.
Qed.

Lemma sign_leaves_other_users_witness :
  userSignSummary
    (db (sign (calm (mkDate 2025 5 3) 7) "u2" "" two_day_streak).2) !! "u1"
  = userSignSummary (db two_day_streak) !! "u1".
Proof.
  apply (sign_leaves_other_users (calm (mkDate 2025 5 3) 7) "u2" ""
           two_day_streak "u1").
  discriminate.
Defined.

(** A call adds at most one row, in front, and changes no row. *)
Lemma sign_log_step env uid d w :
  userSignLog (db (sign env uid d w).2) = userSignLog (db w) ∨
  ∃ r, log_uid r = uid ∧ log_signDate r = credited_date env d ∧
       find_log uid (credited_date env d) (db w) = None ∧
       userSignLog (db (sign env uid d w).2) = r :: userSignLog (db w).
Proof.
  destruct (sign_cases env uid d w)
    as [(_ & _ & H) | [(w0 & H & Hdb & _) | (Hk & _ & cd & fe & fp & _ & _ & H)]];
    rewrite H; simpl.
  - auto.
  - rewrite Hdb. auto.
  - right.
    exists (mkLogRow uid (credited_date env d) (is_supplement env d) fe fp).
    auto.
Qed.

(** X8. The log is append-only: whatever calls follow, the rows present
    before are still there, unchanged and in the same order, behind the
    rows added since. *)
Theorem log_is_append_only cs w :
  userSignLog (db w) `suffix_of` userSignLog (db (run_calls cs w)).
Proof.
  revert w. induction cs as [|c cs IH]; intros w; [reflexivity|].
  simpl. etrans; [|apply IH]. unfold run_call.
  destruct (sign_log_step (call_env c) (call_uid c) (call_date c) w)
    as [-> | (r & _ & _ & _ & ->)].
  - reflexivity.
  - apply suffix_cons_r. reflexivity.
Qed.

Lemma find_log_step env uid d w uid0 d0 r :
  find_log uid0 d0 (db w) = Some r →
  find_log uid0 d0 (db (sign env uid d w).2) = Some r.
Proof.
  intros Hfound. unfold find_log in *.
  destruct (sign_log_step env uid d w) as [-> | (r' & Hu & Hd & Hfree & ->)];
    [assumption|].
  simpl. unfold log_key at 1. rewrite Hu, Hd.
  destruct (bool_decide (uid = uid0) && bool_decide (credited_date env d = d0))
    eqn:Hsame; [|assumption].
  apply andb_true_iff in Hsame as [H1 H2].
  apply bool_decide_eq_true in H1. apply bool_decide_eq_true in H2. subst.
  unfold find_log in Hfree. congruence.
Qed.

Lemma find_log_run_calls cs w uid d r :
  find_log uid d (db w) = Some r →
  find_log uid d (db (run_calls cs w)) = Some r.
Proof.
  revert w. induction cs as [|c cs IH]; intros w Hr; [assumption|].
  simpl. apply IH. unfold run_call. apply find_log_step. assumption.
Qed.

(** X9. A sign-in is permanent: once sign has returned Success, after any
    further calls hasSigned answers True for that user and date and
    getUserSignRewardByDate returns the pair that was granted, on any
    engine that does not fault. *)
Theorem signed_stays_signed env uid d w w1 cs env' :
  sign env uid d w = (Ret 1, w1) →
  (∀ s, faulty env' s = false) →
  ∃ granted_exp granted_point,
    userSignLog (db w1) =
      mkLogRow uid (credited_date env d) (is_supplement env d)
        granted_exp granted_point :: userSignLog (db w) ∧
    (hasSigned env' uid (credited_date env d) (run_calls cs w1)).1 = Ret true ∧
    (getUserSignRewardByDate env' uid (credited_date env d) (run_calls cs w1)).1
      = Ret (granted_exp, granted_point).
Proof.
  intros Hs Hok.
  destruct (sign_success_inv _ _ _ _ _ Hs) as (_ & _ & cd & fe & fp & _ & _ & ->).
  exists fe, fp. split; [reflexivity|].
  pose proof (find_log_run_calls cs
                (mkWorld (committed (db w) uid (credited_date env d)
                            (is_supplement env d) cd fe fp)
                   (trace w ++ SelectLog :: SelectSummary
                      :: write_sequence (userSignSummary (db w) !! uid)))
                uid (credited_date env d) _
                (find_log_committed _ _ _ _ _ _ _)) as Hfound.
  rewrite hasSigned_run, getUserSignRewardByDate_run by assumption.
  rewrite Hfound, Hok. simpl. split; reflexivity.
Qed.

Lemma signed_stays_signed_witness :
  (hasSigned (calm (mkDate 2025 6 1) 0) "u1" "2025-05-01"
     (run_calls back_and_forth
        (sign (calm (mkDate 2025 5 1) 7) "u1" "" initial_world).2)).1 = Ret true ∧
  (getUserSignRewardByDate (calm (mkDate 2025 6 1) 0) "u1" "2025-05-01"
     (run_calls back_and_forth
        (sign (calm (mkDate 2025 5 1) 7) "u1" "" initial_world).2)).1
    = Ret (12, 207).
Proof.
  destruct (signed_stays_signed (calm (mkDate 2025 5 1) 7) "u1" "" initial_world
              (sign (calm (mkDate 2025 5 1) 7) "u1" "" initial_world).2
              back_and_forth (calm (mkDate 2025 6 1) 0))
    as (ge & gp & Hlog & Hhas & Hget).
  - vm_compute. reflexivity.
  - reflexivity.
  - vm_compute in Hlog. injection Hlog as <- <-.
    split; [exact Hhas | exact Hget].
Defined.

(** ** Rewards, streaks and dates as the storage sees them *)

(** The row a successful call writes, with the shape of its reward. *)
Lemma written_row_has_reward_shape env uid d w w' :
  sign env uid d w = (Ret 1, w') →
  ∃ streak granted_exp granted_point,
    userSignLog (db w') =
      mkLogRow uid (credited_date env d) (is_supplement env d)
        granted_exp granted_point :: userSignLog (db w) ∧
    reward_shape (is_supplement env d) streak granted_exp granted_point.
Proof.
  intros Hs.
  destruct (sign_success_inv _ _ _ _ _ Hs) as (_ & _ & cd & fe & fp & _ & Hrw & ->).
  exists cd, fe, fp. split; [reflexivity|].
  destruct (sign_reward_shape env cd (is_supplement env d)) as (fe' & fp' & Hrw' & Hshape).
  rewrite Hrw in Hrw'. injection Hrw' as <- <-. assumption.
Qed.

(** X10. Every sign-in grants a positive, bounded reward: between 2 and
    369 experience and between 100 and 31000 points however long the
    streak is, and at most 25 and 1000 for a supplement. *)
Theorem granted_reward_is_bounded env uid d w w' :
  sign env uid d w = (Ret 1, w') →
  ∃ granted_exp granted_point,
    userSignLog (db w') =
      mkLogRow uid (credited_date env d) (is_supplement env d)
        granted_exp granted_point :: userSignLog (db w) ∧
    2 ≤ granted_exp ≤ 369 ∧ 100 ≤ granted_point ≤ 31000 ∧
    (is_supplement env d = true → granted_exp ≤ 25 ∧ granted_point ≤ 1000) ∧
    (is_supplement env d = false → 5 ≤ granted_exp ∧ 200 ≤ granted_point).
Proof.
  intros Hs.
  destruct (written_row_has_reward_shape env uid d w w' Hs)
    as (cd & fe & fp & Hlog & Hshape).
  exists fe, fp. split; [assumption|].
  destruct Hshape as (be & bp & xe & xp & Hbe & Hbp & Hzero & Hbonus & Hsum & Hhalf).
  destruct (is_supplement env d).
  - destruct (Hhalf eq_refl) as [-> ->].
    assert (2 ≤ be / 2 ≤ 25) by (Z.to_euclidean_division_equations; lia).
    assert (100 ≤ bp / 2 ≤ 1000) by (Z.to_euclidean_division_equations; lia).
    split; [lia|]. split; [lia|]. split; [intros _; lia | discriminate].
  - destruct (Hsum eq_refl) as [-> ->].
    assert (0 ≤ xe ≤ 319 ∧ 0 ≤ xp ≤ 29000) as [Hxe Hxp].
    { destruct (Z_le_gt_dec cd 1) as [Hle | Hgt].
      - destruct (Hzero (or_intror Hle)) as [-> ->]. lia.
      - specialize (Hbonus eq_refl ltac:(lia)). simpl in Hbonus. lia. }
    split; [lia|]. split; [lia|]. split; [discriminate | intros _; lia].
Qed.

Lemma granted_reward_is_bounded_witness :
  ∃ granted_exp granted_point,
    userSignLog (db (sign (calm (mkDate 2025 5 3) 7) "u1" "" two_day_streak).2) =
      mkLogRow "u1" "2025-05-03" false granted_exp granted_point
        :: userSignLog (db two_day_streak) ∧
    5 ≤ granted_exp ≤ 369 ∧ 200 ≤ granted_point ≤ 31000.
Proof.
  destruct (granted_reward_is_bounded (calm (mkDate 2025 5 3) 7) "u1" ""
              two_day_streak
              (sign (calm (mkDate 2025 5 3) 7) "u1" "" two_day_streak).2)
    as (ge & gp & Hlog & He & Hp & _ & Hlow).
  - vm_compute. reflexivity.
  - exists ge, gp. split; [exact Hlog|].
    destruct (Hlow eq_refl). lia.
Defined.

(** X11. A sign-in on the day of the clock by a user with a summary row
    stores the streak it computed: continuousDays plus 1 when the stored
    lastSignDate is the day before, 1 otherwise; it adds 1 to totalSignDays,
    stores the day as lastSignDate and leaves supplementCount alone. *)
Theorem sign_in_today_updates_streak env uid w w' row day_before :
  userSignSummary (db w) !! uid = Some row →
  valid_date (today env) = true →
  minus_one_day (today env) = Some day_before →
  sign env uid "" w = (Ret 1, w') →
  ∃ row', userSignSummary (db w') !! uid = Some row' ∧
    continuousDays row' =
      (if bool_decide (lastSignDate row = Some (strftime day_before))
       then continuousDays row + 1 else 1) ∧
    totalSignDays row' = totalSignDays row + 1 ∧
    lastSignDate row' = Some (strftime (today env)) ∧
    supplementCount row' = supplementCount row.
Proof.
  intros Hrow Hv Hp Hs.
  destruct (sign_success_inv _ _ _ _ _ Hs) as (_ & _ & cd & fe & fp & Hcd & _ & ->).
  assert (Hdate : credited_date env "" = strftime (today env)) by reflexivity.
  assert (Hsup : is_supplement env "" = false).
  { unfold is_supplement. rewrite Hdate, bool_decide_true by reflexivity. reflexivity. }
  rewrite Hrow, Hsup, Hdate, (streak_of_today env row day_before Hv Hp) in Hcd.
  injection Hcd as <-.
  eexists. simpl. rewrite lookup_insert_eq. split; [reflexivity|].
  rewrite Hrow, Hsup, Hdate. simpl. auto.
Qed.

Lemma sign_in_today_updates_streak_witness :
  ∃ row', userSignSummary
            (db (sign (calm (mkDate 2025 5 3) 7) "u1" "" two_day_streak).2) !! "u1"
          = Some row' ∧
    continuousDays row' = 2 + 1.
Proof.
  destruct (sign_in_today_updates_streak (calm (mkDate 2025 5 3) 7) "u1"
              two_day_streak
              (sign (calm (mkDate 2025 5 3) 7) "u1" "" two_day_streak).2
              (mkSummaryRow 2 "2025-05" 2 (Some "2025-05-02") 2 0)
              (mkDate 2025 5 2)) as (row' & Hrow' & Hcont & _).
  - vm_compute. reflexivity.
  - reflexivity.
  - reflexivity.
  - vm_compute. reflexivity.
  - exists row'. split; [exact Hrow' | exact Hcont].
Defined.



(** ** The read-only queries *)

Lemma getUserSignCountByDate_run env uid monthStr w :
  getUserSignCountByDate env uid monthStr w =
    (Ret (if faulty env SelectLog then 0
          else Z.of_nat (length (select_dates_like uid (monthStr ++ "-%")%string (db w)))),
     mkWorld (db w) (trace w ++ [SelectLog])).
Proof.
  unfold getUserSignCountByDate. unfold_M.
  destruct (faulty env SelectLog); reflexivity.
Qed.

Lemma getUserSignRewardByDate_db env uid date w :
  db (getUserSignRewardByDate env uid date w).2 = db w ∧
  ∃ pair, (getUserSignRewardByDate env uid date w).1 = Ret pair.
Proof.
  unfold getUserSignRewardByDate, _transaction. unfold_M.
  destruct (faulty env Begin); simpl; [eauto|].
  destruct (faulty env SelectLog); simpl; [eauto|].
  destruct (find_log uid date (db w)); simpl;
    destruct (faulty env Commit); simpl; eauto.
Qed.

(** X13. The three queries never change the storage and never raise,
    whatever the engine does: hasSigned, getUserSignRewardByDate and
    getUserSignCountByDate return a value and leave the log, the summaries
    and the balances as they were. *)
Theorem queries_are_read_only env uid text w :
  (db (hasSigned env uid text w).2 = db w ∧
   ∃ b, (hasSigned env uid text w).1 = Ret b) ∧
  (db (getUserSignRewardByDate env uid text w).2 = db w ∧
   ∃ pair, (getUserSignRewardByDate env uid text w).1 = Ret pair) ∧
  (db (getUserSignCountByDate env uid text w).2 = db w ∧
   ∃ n, (getUserSignCountByDate env uid text w).1 = Ret n).
Proof.
  rewrite hasSigned_run, getUserSignCountByDate_run. simpl.
  split; [eauto|]. split; [apply getUserSignRewardByDate_db | eauto].
Qed.

(** X14. getUserSignRewardByDate answers (0, 0) when there is no row for
    the user and date, and also when any of its statements faults, even if
    the row exists: a fault reads as no reward. *)
Theorem reward_lookup_defaults_to_zero env uid date w :
  find_log uid date (db w) = None ∨
  faulty env Begin = true ∨ faulty env SelectLog = true ∨ faulty env Commit = true →
  (getUserSignRewardByDate env uid date w).1 = Ret (0, 0).
Proof.
  intros H. unfold getUserSignRewardByDate, _transaction. unfold_M.
  destruct (faulty env Begin) eqn:Hb; simpl; [reflexivity|].
  destruct (faulty env SelectLog) eqn:Hs; simpl; [reflexivity|].
  destruct (find_log uid date (db w)) eqn:Hk; simpl;
    destruct (faulty env Commit) eqn:Hc; simpl; try reflexivity.
  exfalso. intuition discriminate.
Qed.

Lemma reward_lookup_defaults_to_zero_witness :
  find_log "u1" "2025-05-01" (db two_day_streak) ≠ None ∧
  (getUserSignRewardByDate
     (mkEnv (mkDate 2025 5 9) (λ _, 0) (faults_on [Commit])) "u1" "2025-05-01"
     two_day_streak).1 = Ret (0, 0).
Proof.
  split; [vm_compute; discriminate|].
  apply (reward_lookup_defaults_to_zero
           (mkEnv (mkDate 2025 5 9) (λ _, 0) (faults_on [Commit])) "u1" "2025-05-01"
           two_day_streak).
  right. right. right. reflexivity.
Defined.

(** ** [LIKE] and the monthly count *)

Lemma append_assoc (a b c : string) : ((a ++ b) ++ c = a ++ (b ++ c))%string.
Proof.
  induction a as [|x a IH]; [reflexivity|].
  change (String x ((a ++ b) ++ c) = String x (a ++ (b ++ c)))%string.
  rewrite IH. reflexivity.
Qed.

Lemma like_percent (p s : string) :
  like (String "%" p) s =
    like p s || (if s is String _ s' then like (String "%" p) s' else false).
Proof. destruct s; reflexivity. Qed.

Lemma like_literal (c : ascii) (p : string) (c' : ascii) (s : string) :
  Ascii.eqb c "%" = false →
  like (String c p) (String c' s) =
    (Ascii.eqb c "_" || Ascii.eqb (upper c) (upper c')) && like p s.
Proof. intros Hc. simpl. rewrite Hc. reflexivity. Qed.

(** A pattern followed by [%] matches every text that begins with the
    pattern itself. *)
Lemma like_own_prefix (p s : string) : like (p ++ "%") (p ++ s) = true.
Proof.
  induction p as [|c p IH].
  - change (like "%" s = true).
    induction s as [|a s IHs]; [reflexivity|].
    rewrite like_percent, IHs. apply orb_true_r.
  - change (like (String c (p ++ "%")) (String c (p ++ s)) = true).
    destruct (Ascii.eqb c "%") eqn:Hc.
    + apply Ascii.eqb_eq in Hc as ->.
      rewrite like_percent. apply orb_true_iff. right.
      rewrite like_percent, IH. reflexivity.
    + rewrite (like_literal _ _ _ _ Hc), Ascii.eqb_refl, orb_true_r, IH.
      reflexivity.
Qed.

(** A formatted date begins with its own month and a dash. *)
Lemma strftime_month_prefix (day : date) :
  ∃ rest, strftime day = (month_of (strftime day) ++ "-" ++ rest)%string.
Proof. eexists. unfold strftime, month_of. simpl. reflexivity. Qed.

Lemma select_dates_like_cons uid pattern r l :
  length (log_signDate <$>
            filter (λ r, log_uid r = uid ∧ like pattern (log_signDate r) = true)
              (r :: l))
  = ((if bool_decide (log_uid r = uid) && like pattern (log_signDate r)
      then 1 else 0)
     + length (log_signDate <$>
                 filter (λ r, log_uid r = uid ∧ like pattern (log_signDate r) = true)
                   l))%nat.
Proof.
  rewrite filter_cons.
  case_bool_decide; destruct (like pattern (log_signDate r)); case_decide;
    simpl; try tauto; try reflexivity.
  all: exfalso; intuition discriminate.
Qed.

(** X15. A sign-in is counted in its month: after sign has returned
    Success for a date in the format of the clock, getUserSignCountByDate
    for that user and the month of that date is one more than before, on
    an engine that does not fault. *)
Theorem sign_in_is_counted_in_its_month env uid d w w' day env' :
  sign env uid d w = (Ret 1, w') →
  credited_date env d = strftime day →
  faulty env' SelectLog = false →
  ∃ n,
    (getUserSignCountByDate env' uid (month_of (strftime day)) w).1 = Ret n ∧
    (getUserSignCountByDate env' uid (month_of (strftime day)) w').1 = Ret (n + 1).
Proof.
  intros Hs Hday Hok.
  destruct (sign_success_inv _ _ _ _ _ Hs) as (_ & _ & cd & fe & fp & _ & _ & ->).
  rewrite !getUserSignCountByDate_run, Hok. simpl.
  eexists. split; [reflexivity|]. f_equal.
  unfold select_dates_like, committed. simpl userSignLog.
  rewrite select_dates_like_cons. simpl log_uid. simpl log_signDate.
  rewrite bool_decide_true by reflexivity. rewrite Hday.
  destruct (strftime_month_prefix day) as (rest & Hrest).
  rewrite Hrest at 2.
  change (month_of (strftime day) ++ "-%")%string
    with (month_of (strftime day) ++ ("-" ++ "%"))%string.
  rewrite <- !append_assoc, like_own_prefix. simpl andb. cbv iota. lia.
Qed.

Lemma sign_in_is_counted_in_its_month_witness :
  (getUserSignCountByDate (calm (mkDate 2025 6 1) 0) "u1" "2025-05"
     (sign (calm (mkDate 2025 5 3) 7) "u1" "" two_day_streak).2).1 = Ret (2 + 1).
Proof.
  destruct (sign_in_is_counted_in_its_month (calm (mkDate 2025 5 3) 7) "u1" ""
              two_day_streak
              (sign (calm (mkDate 2025 5 3) 7) "u1" "" two_day_streak).2
              (mkDate 2025 5 3) (calm (mkDate 2025 6 1) 0))
    as (n & Hbefore & Hafter).
  - vm_compute. reflexivity.
  - reflexivity.
  - reflexivity.
  - vm_compute in Hbefore. injection Hbefore as <-. exact Hafter.
Defined.

(** When the counting query faults, getUserSignCountByDate answers 0
    whatever the log holds. *)
Lemma month_count_fault_reads_as_zero env uid monthStr w :
  faulty env SelectLog = true →
  (getUserSignCountByDate env uid monthStr w).1 = Ret 0.
Proof.
  intros Hf. rewrite getUserSignCountByDate_run, Hf. reflexivity.
Qed.

Lemma month_count_fault_reads_as_zero_witness :
  (getUserSignCountByDate (calm (mkDate 2025 6 1) 0) "u1" "2025-05"
     two_day_streak).1 = Ret 2 ∧
  (getUserSignCountByDate
     (mkEnv (mkDate 2025 6 1) (λ _, 0) (faults_on [SelectLog])) "u1" "2025-05"
     two_day_streak).1 = Ret 0.
Proof.
  split; [vm_compute; reflexivity|].
  apply (month_count_fault_reads_as_zero
           (mkEnv (mkDate 2025 6 1) (λ _, 0) (faults_on [SelectLog])) "u1" "2025-05"
           two_day_streak).
  reflexivity.
Defined.

(** * The sign-in calendar *)

Module CalendarImage.

Import PyCalendar.

Lemma monthrange_ok (year month : Z) :
  1 ≤ month ≤ 12 →
  ∃ firstWeekday totalDays,
    monthrange year month = Ret (firstWeekday, totalDays) ∧
    0 ≤ firstWeekday ≤ 6 ∧ 28 ≤ totalDays ≤ 31.
Proof.
  intros Hm. unfold monthrange.
  destruct (1 <=? month) eqn:H1; [|apply Z.leb_gt in H1; lia].
  destruct (month <=? 12) eqn:H2; [|apply Z.leb_gt in H2; lia].
  simpl. eexists _, _. split; [reflexivity|]. split.
  - unfold weekday. pose proof (Z.mod_pos_bound
      (_ymd2ord (if (1 <=? year) && (year <=? 9999) then year
                 else 2000 + year mod 400) month 1 + 6) 7).
    lia.
  - assert (month = 1 ∨ month = 2 ∨ month = 3 ∨ month = 4 ∨ month = 5 ∨
            month = 6 ∨ month = 7 ∨ month = 8 ∨ month = 9 ∨ month = 10 ∨
            month = 11 ∨ month = 12) as Hcases by lia.
    repeat destruct Hcases as [-> | Hcases]; try subst month; simpl;
      try destruct (isleap year); simpl; lia.
Qed.

Lemma draw_day_ops fw sd img day :
  img_ops (draw_day fw sd img day) = img_ops img ++ day_ops fw sd day ∧
  img_width (draw_day fw sd img day) = img_width img ∧
  img_height (draw_day fw sd img day) = img_height img.
Proof.
  unfold draw_day, day_ops. destruct (cell_box fw day) as [[[x1 y1] x2] y2].
  simpl. rewrite <- app_assoc. auto.
Qed.

Lemma fold_draw_day fw sd days img :
  img_ops (fold_left (draw_day fw sd) days img)
    = img_ops img ++ flat_map (day_ops fw sd) days ∧
  img_width (fold_left (draw_day fw sd) days img) = img_width img ∧
  img_height (fold_left (draw_day fw sd) days img) = img_height img.
Proof.
  revert img. induction days as [|day days IH]; intros img; simpl.
  - rewrite app_nil_r. auto.
  - destruct (IH (draw_day fw sd img day)) as (-> & -> & ->).
    destruct (draw_day_ops fw sd img day) as (-> & -> & ->).
    rewrite <- app_assoc. auto.
Qed.

(** What the function draws for a month of the year. *)
Lemma draw_run env uid year month w firstWeekday totalDays :
  monthrange year month = Ret (firstWeekday, totalDays) →
  ∃ img,
    drawSignCalendarImage env uid year month w
      = (Ret img, mkWorld (db w) (trace w ++ [SelectLog])) ∧
    img_width img = 640 ∧ img_height img = 640 ∧
    img_ops img =
      Text (40, 20) (str year ++ "年" ++ str month ++ "月签到表")%string 36
        :: flat_map (day_ops firstWeekday (marked env uid year month w))
             (seqZ 1 totalDays).
Proof.
  intros Hrange. unfold drawSignCalendarImage, marked. unfold_M.
  rewrite Hrange. simpl.
  destruct (faulty env SelectLog); simpl;
    (eexists; split; [reflexivity|];
     match goal with
     | |- context [fold_left (draw_day ?fw ?sd) ?days ?img] =>
       destruct (fold_draw_day fw sd days img) as (-> & -> & ->)
     end; simpl; auto).
Qed.

Lemma cell_box_inside fw day img :
  img_width img = 640 → img_height img = 640 →
  0 ≤ fw ≤ 6 → 1 ≤ day ≤ 31 → box_inside img (cell_box fw day).
Proof.
  intros Hw Hh Hfw Hday. unfold box_inside, cell_box, padding, titleHeight,
    cellSize, cols. rewrite Hw, Hh.
  Z.to_euclidean_division_equations. lia.
Qed.

Lemma cell_box_disjoint fw day day' :
  0 ≤ day + fw - 1 → 0 ≤ day' + fw - 1 → day ≠ day' →
  boxes_disjoint (cell_box fw day) (cell_box fw day').
Proof.
  intros H1 H2 Hne. unfold boxes_disjoint, cell_box, padding, titleHeight,
    cellSize, cols.
  Z.to_euclidean_division_equations. lia.
Qed.

Lemma cell_box_inj fw day day' :
  0 ≤ day + fw - 1 → 0 ≤ day' + fw - 1 →
  cell_box fw day = cell_box fw day' → day = day'.
Proof.
  intros H1 H2 Heq. destruct (decide (day = day')) as [|Hne]; [assumption|].
  pose proof (cell_box_disjoint fw day day' H1 H2 Hne) as Hdis.
  rewrite Heq in Hdis. unfold boxes_disjoint, cell_box, padding, titleHeight,
    cellSize, cols in Hdis.
  exfalso. revert Hdis. Z.to_euclidean_division_equations. lia.
Qed.

Lemma elem_of_day_ops fw sd day op :
  op ∈ day_ops fw sd day ↔
  op = Rectangle (cell_box fw day)
         (if bool_decide (day ∈ sd) then GREEN else GREY) "black" 2 ∨
  op = Text ((cell_box fw day).1.1.1 + 10, (cell_box fw day).1.1.2 + 10) (str day) 24.
Proof.
  unfold day_ops. destruct (cell_box fw day) as [[[x1 y1] x2] y2]. simpl.
  rewrite !elem_of_cons, elem_of_nil. tauto.
Qed.

Lemma elem_of_flat_map_days fw sd m n op :
  op ∈ flat_map (day_ops fw sd) (seqZ m n) ↔
  ∃ day, m ≤ day < m + n ∧ op ∈ day_ops fw sd day.
Proof.
  rewrite list_elem_of_In, in_flat_map. split.
  - intros (day & Hday & Hop). exists day.
    apply list_elem_of_In, elem_of_seqZ in Hday.
    split; [assumption|]. apply list_elem_of_In. assumption.
  - intros (day & Hday & Hop). exists day.
    split; [apply list_elem_of_In, elem_of_seqZ; assumption|].
    apply list_elem_of_In. assumption.
Qed.

End CalendarImage.

(** X16. For every year and every month from 1 to 12 the calendar is
    drawn: a 640 by 640 image in which every cell lies inside the margins,
    right of and below the padding and below the title. Six rows of seven
    cells are enough for every month. *)
Theorem calendar_cells_fit env uid year month w :
  1 ≤ month ≤ 12 →
  ∃ img,
    (drawSignCalendarImage env uid year month w).1 = Ret img ∧
    img_width img = 640 ∧ img_height img = 640 ∧
    ∀ box fill outline width,
      Rectangle box fill outline width ∈ img_ops img → box_inside img box.
Proof.
  intros Hm.
  destruct (CalendarImage.monthrange_ok year month Hm) as (fw & nd & Hrange & Hfw & Hnd).
  destruct (CalendarImage.draw_run env uid year month w fw nd Hrange)
    as (img & Hrun & Hw & Hh & Hops).
  exists img. rewrite Hrun. split; [reflexivity|]. split; [assumption|].
  split; [assumption|].
  intros box fill outline width Hin. rewrite Hops in Hin.
  apply elem_of_cons in Hin as [Hin | Hin]; [discriminate|].
  apply CalendarImage.elem_of_flat_map_days in Hin as (day & Hday & Hin).
  apply CalendarImage.elem_of_day_ops in Hin as [Hin | Hin]; [|discriminate].
  injection Hin as -> _ _ _.
  apply CalendarImage.cell_box_inside; try assumption. lia.
Qed.

Lemma calendar_cells_fit_witness :
  ∃ img,
    (drawSignCalendarImage (calm (mkDate 2025 5 1) 7) "u1" 2026 8 two_day_streak).1
      = Ret img ∧
    img_width img = 640 ∧ img_height img = 640 ∧
    ∀ box fill outline width,
      Rectangle box fill outline width ∈ img_ops img → box_inside img box.
Proof.
  apply (calendar_cells_fit (calm (mkDate 2025 5 1) 7) "u1" 2026 8 two_day_streak).
  lia.
Defined.

(** X17. Every day of the month has its cell and its label: for each day
    from 1 to the length of the month the image holds the rectangle of the
    day, green or grey, and the number of the day written 10 pixels inside
    its corner. *)
Theorem calendar_has_every_day env uid year month w firstWeekday totalDays day :
  PyCalendar.monthrange year month = Ret (firstWeekday, totalDays) →
  1 ≤ day ≤ totalDays →
  ∃ img fill,
    (drawSignCalendarImage env uid year month w).1 = Ret img ∧
    (fill = GREEN ∨ fill = GREY) ∧
    Rectangle (cell_box firstWeekday day) fill "black" 2 ∈ img_ops img ∧
    Text ((cell_box firstWeekday day).1.1.1 + 10,
          (cell_box firstWeekday day).1.1.2 + 10) (str day) 24 ∈ img_ops img.
Proof.
  intros Hrange Hday.
  destruct (CalendarImage.draw_run env uid year month w _ _ Hrange)
    as (img & Hrun & _ & _ & Hops).
  exists img, (if bool_decide (day ∈ marked env uid year month w) then GREEN else GREY).
  rewrite Hrun, Hops. split; [reflexivity|].
  split; [case_bool_decide; auto|].
  split; apply elem_of_cons; right;
    apply CalendarImage.elem_of_flat_map_days; exists day; (split; [lia|]);
    apply CalendarImage.elem_of_day_ops; auto.
Qed.

Lemma calendar_has_every_day_witness :
  ∃ img fill,
    (drawSignCalendarImage (calm (mkDate 2025 5 1) 7) "u1" 2024 2 two_day_streak).1
      = Ret img ∧
    (fill = GREEN ∨ fill = GREY) ∧
    Rectangle (cell_box 3 29) fill "black" 2 ∈ img_ops img ∧
    Text ((cell_box 3 29).1.1.1 + 10, (cell_box 3 29).1.1.2 + 10) (str 29) 24
      ∈ img_ops img.
Proof.
  apply (calendar_has_every_day (calm (mkDate 2025 5 1) 7) "u1" 2024 2
           two_day_streak 3 29 29).
  - reflexivity.
  - lia.
Defined.

(** X18. The cells of two different days of a month never overlap. *)
Theorem calendar_cells_are_disjoint year month firstWeekday totalDays day day' :
  PyCalendar.monthrange year month = Ret (firstWeekday, totalDays) →
  1 ≤ day ≤ totalDays → 1 ≤ day' ≤ totalDays → day ≠ day' →
  boxes_disjoint (cell_box firstWeekday day) (cell_box firstWeekday day').
Proof.
  intros Hrange Hday Hday' Hne.
  assert (0 ≤ firstWeekday).
  { unfold PyCalendar.monthrange in Hrange.
    destruct ((1 <=? month) && (month <=? 12)); [|discriminate].
    injection Hrange as <- _. unfold PyCalendar.weekday.
    apply Z.mod_pos_bound. lia. }
  apply CalendarImage.cell_box_disjoint; lia.
Qed.

Lemma calendar_cells_are_disjoint_witness :
  boxes_disjoint (cell_box 3 7) (cell_box 3 8).
Proof.
  apply (calendar_cells_are_disjoint 2025 5 3 31 7 8).
  - reflexivity.
  - lia.
  - lia.
  - lia.
Defined.

(** X19. A month outside 1..12 is not drawn: drawSignCalendarImage raises
    before it queries the storage, and unlike the other methods does not
    catch the exception. *)
Theorem calendar_rejects_bad_month env uid year month w :
  month < 1 ∨ 12 < month →
  drawSignCalendarImage env uid year month w = (Raise ValueError, w).
Proof.
  intros Hm. unfold drawSignCalendarImage, PyCalendar.monthrange. unfold_M.
  destruct ((1 <=? month) && (month <=? 12)) eqn:Hin; [|reflexivity].
  apply andb_true_iff in Hin as [H1 H2].
  apply Z.leb_le in H1. apply Z.leb_le in H2. lia.
Qed.

Lemma calendar_rejects_bad_month_witness :
  drawSignCalendarImage (calm (mkDate 2025 5 1) 7) "u1" 2025 13 two_day_streak
  = (Raise ValueError, two_day_streak).
Proof.
  apply (calendar_rejects_bad_month (calm (mkDate 2025 5 1) 7) "u1" 2025 13
           two_day_streak).
  right. lia.
Defined.

(** X20. When the query of the calendar faults, the calendar is still
    drawn, complete, with every cell grey. *)
Theorem calendar_fault_draws_all_grey env uid year month w :
  1 ≤ month ≤ 12 → faulty env SelectLog = true →
  ∃ img,
    (drawSignCalendarImage env uid year month w).1 = Ret img ∧
    ∀ box fill outline width,
      Rectangle box fill outline width ∈ img_ops img → fill = GREY.
Proof.
  intros Hm Hf.
  destruct (CalendarImage.monthrange_ok year month Hm) as (fw & nd & Hrange & _).
  destruct (CalendarImage.draw_run env uid year month w fw nd Hrange)
    as (img & Hrun & _ & _ & Hops).
  exists img. rewrite Hrun. split; [reflexivity|].
  intros box fill outline width Hin. rewrite Hops in Hin.
  apply elem_of_cons in Hin as [Hin | Hin]; [discriminate|].
  apply CalendarImage.elem_of_flat_map_days in Hin as (day & Hday & Hin).
  apply CalendarImage.elem_of_day_ops in Hin as [Hin | Hin]; [|discriminate].
  injection Hin as _ -> _ _.
  unfold marked. rewrite Hf.
  rewrite bool_decide_false; [reflexivity|]. apply not_elem_of_nil.
Qed.

Lemma calendar_fault_draws_all_grey_witness :
  find_log "u1" "2025-05-01" (db two_day_streak) ≠ None ∧
  ∃ img,
    (drawSignCalendarImage
       (mkEnv (mkDate 2025 5 9) (λ _, 0) (faults_on [SelectLog])) "u1" 2025 5
       two_day_streak).1 = Ret img ∧
    ∀ box fill outline width,
      Rectangle box fill outline width ∈ img_ops img → fill = GREY.
Proof.
  split; [vm_compute; discriminate|].
  apply (calendar_fault_draws_all_grey
           (mkEnv (mkDate 2025 5 9) (λ _, 0) (faults_on [SelectLog])) "u1" 2025 5
           two_day_streak).
  - lia.
  - reflexivity.
Defined.

(** ** Which cells are green *)

Lemma elem_of_marked env uid year month w day :
  faulty env SelectLog = false →
  day ∈ marked env uid year month w ↔
  ∃ r, r ∈ userSignLog (db w) ∧ log_uid r = uid ∧
       like ((format_0d 4 year ++ "-" ++ format_0d 2 month) ++ "-%")%string
         (log_signDate r) = true ∧
       isdigit (last_two (log_signDate r)) = true ∧
       int_of_digits (last_two (log_signDate r)) = day.
Proof.
  intros Hok. unfold marked, signed_days, select_dates_like. rewrite Hok.
  rewrite list_elem_of_fmap. split.
  - intros (s & -> & Hs).
    apply list_elem_of_filter in Hs as [Hdig Hs].
    apply list_elem_of_fmap in Hs as (date & -> & Hdate).
    apply list_elem_of_fmap in Hdate as (r & -> & Hr).
    apply list_elem_of_filter in Hr as [[Hu Hl] Hr].
    exists r. auto.
  - intros (r & Hr & Hu & Hl & Hdig & <-).
    exists (last_two (log_signDate r)). split; [reflexivity|].
    apply list_elem_of_filter. split; [assumption|].
    apply list_elem_of_fmap. exists (log_signDate r). split; [reflexivity|].
    apply list_elem_of_fmap. exists r. split; [reflexivity|].
    apply list_elem_of_filter. auto.
Qed.

(** The green cells of the calendar, read off the log. *)
Lemma green_cell_iff_row env uid year month w firstWeekday totalDays day :
  PyCalendar.monthrange year month = Ret (firstWeekday, totalDays) →
  1 ≤ day ≤ totalDays →
  faulty env SelectLog = false →
  ∃ img,
    (drawSignCalendarImage env uid year month w).1 = Ret img ∧
    (Rectangle (cell_box firstWeekday day) GREEN "black" 2 ∈ img_ops img ↔
     ∃ r, r ∈ userSignLog (db w) ∧ log_uid r = uid ∧
          like ((format_0d 4 year ++ "-" ++ format_0d 2 month) ++ "-%")%string
            (log_signDate r) = true ∧
          isdigit (last_two (log_signDate r)) = true ∧
          int_of_digits (last_two (log_signDate r)) = day).
Proof.
  intros Hrange Hday Hok.
  assert (Hfw : 0 ≤ firstWeekday).
  { unfold PyCalendar.monthrange in Hrange.
    destruct ((1 <=? month) && (month <=? 12)); [|discriminate].
    injection Hrange as <- _. unfold PyCalendar.weekday.
    apply Z.mod_pos_bound. lia. }
  destruct (CalendarImage.draw_run env uid year month w _ _ Hrange)
    as (img & Hrun & _ & _ & Hops).
  exists img. rewrite Hrun. split; [reflexivity|].
  rewrite <- (elem_of_marked env uid year month w day Hok), Hops.
  split.
  - intros Hin. apply elem_of_cons in Hin as [Hin | Hin]; [discriminate|].
    apply CalendarImage.elem_of_flat_map_days in Hin as (day' & Hday' & Hin).
    apply CalendarImage.elem_of_day_ops in Hin as [Hin | Hin]; [|discriminate].
    assert (Hbox : cell_box firstWeekday day = cell_box firstWeekday day')
      by congruence.
    apply CalendarImage.cell_box_inj in Hbox; [|lia..]. subst day'.
    case_bool_decide; [assumption | discriminate].
  - intros Hmark. apply elem_of_cons. right.
    apply CalendarImage.elem_of_flat_map_days. exists day. split; [lia|].
    apply CalendarImage.elem_of_day_ops. left.
    rewrite bool_decide_true by assumption. reflexivity.
Qed.

(** X21. On a working engine, and when the dates of the user's rows are
    ASCII texts, the cell of a day is green exactly when the log has a row
    of the user whose date is LIKE the month of the calendar followed by a
    dash, and whose last two characters are digits that read as the number
    of the day. *)
Theorem calendar_green_iff_row env uid year month w firstWeekday totalDays day :
  PyCalendar.monthrange year month = Ret (firstWeekday, totalDays) →
  1 ≤ day ≤ totalDays →
  faulty env SelectLog = false →
  (∀ r, r ∈ userSignLog (db w) → log_uid r = uid →
        ascii_text (log_signDate r) = true) →
  ∃ img,
    (drawSignCalendarImage env uid year month w).1 = Ret img ∧
    (Rectangle (cell_box firstWeekday day) GREEN "black" 2 ∈ img_ops img ↔
     ∃ r, r ∈ userSignLog (db w) ∧ log_uid r = uid ∧
          like ((format_0d 4 year ++ "-" ++ format_0d 2 month) ++ "-%")%string
            (log_signDate r) = true ∧
          isdigit (last_two (log_signDate r)) = true ∧
          int_of_digits (last_two (log_signDate r)) = day).
Proof.
  intros Hrange Hday Hok _.
  apply (green_cell_iff_row env uid year month w firstWeekday totalDays day);
    assumption.
Qed.

Lemma calendar_green_iff_row_witness :
  ∃ img,
    (drawSignCalendarImage (calm (mkDate 2025 5 9) 0) "u1" 2025 5 two_day_streak).1
      = Ret img ∧
    Rectangle (cell_box 3 2) GREEN "black" 2 ∈ img_ops img.
Proof.
  destruct (calendar_green_iff_row (calm (mkDate 2025 5 9) 0) "u1" 2025 5
              two_day_streak 3 31 2) as (img & Hrun & Hiff).
  - reflexivity.
  - lia.
  - reflexivity.
  - intros r Hr _. apply list_elem_of_In in Hr. vm_compute in Hr.
    destruct Hr as [<- | [<- | []]]; reflexivity.
  - exists img. split; [exact Hrun|]. apply Hiff.
    exists (mkLogRow "u1" "2025-05-02" false 23 714).
    split; [|repeat split; reflexivity].
    apply list_elem_of_In. vm_compute. tauto.
Defined.

(** ** From a sign-in to its green cell *)

Module DateText.

Import CalendarFacts.

#[local] Open Scope N_scope.

Lemma format_0d_4 (y : N) :
  y <= 9999 →
  format_0d 4 (Z.of_N y) =
    String (digit_char (y / 1000)) (String (digit_char (y / 100))
    (String (digit_char (y / 10)) (String (digit_char y) EmptyString))).
Proof.
  intros Hy.
  assert (Hall : forallb (λ n : N,
            String.eqb (format_0d 4 (Z.of_N n))
              (String (digit_char (n / 1000)) (String (digit_char (n / 100))
              (String (digit_char (n / 10)) (String (digit_char n) EmptyString)))))
            (map N.of_nat (seq 0 (N.to_nat 10000))) = true) by (vm_compute; reflexivity).
  rewrite forallb_forall in Hall. apply String.eqb_eq, Hall.
  apply in_map_iff. exists (N.to_nat y). split; [apply N2Nat.id|].
  apply in_seq. lia.
Qed.

Lemma format_0d_2 (m : N) :
  m <= 99 →
  format_0d 2 (Z.of_N m) =
    String (digit_char (m / 10)) (String (digit_char m) EmptyString).
Proof.
  intros Hm.
  assert (Hall : forallb (λ n : N,
            String.eqb (format_0d 2 (Z.of_N n))
              (String (digit_char (n / 10)) (String (digit_char n) EmptyString)))
            (map N.of_nat (seq 0 (N.to_nat 100))) = true) by (vm_compute; reflexivity).
  rewrite forallb_forall in Hall. apply String.eqb_eq, Hall.
  apply in_map_iff. exists (N.to_nat m). split; [apply N2Nat.id|].
  apply in_seq. lia.
Qed.

(** The clock and the calendar write a date the same way. *)
Lemma strftime_date_text (d : date) :
  valid_date d = true →
  strftime d = date_text (Z.of_N (year d)) (Z.of_N (month d)) (Z.of_N (day d)).
Proof.
  intros Hv. pose proof (valid_date_bounds d Hv) as (Hy & Hm & Hd).
  pose proof (days_in_month_le (year d) (month d)).
  unfold date_text, strftime.
  rewrite format_0d_4, !format_0d_2 by lia. reflexivity.
Qed.

Lemma is_leap_isleap (y : N) : PyCalendar.isleap (Z.of_N y) = is_leap y.
Proof.
  unfold PyCalendar.isleap, is_leap.
  change 4%Z with (Z.of_N 4). change 100%Z with (Z.of_N 100).
  change 400%Z with (Z.of_N 400). rewrite <- !N2Z.inj_mod.
  assert (Heqb : ∀ n : N, (Z.of_N n =? 0)%Z = (n =? 0)).
  { intros n. destruct n; reflexivity. }
  rewrite !Heqb. reflexivity.
Qed.

(** The month lengths of [datetime] and of [calendar] agree. *)
Lemma monthrange_days (y m : N) :
  1 <= m <= 12 →
  ∃ fw, PyCalendar.monthrange (Z.of_N y) (Z.of_N m)
        = Ret (fw, Z.of_N (days_in_month y m)).
Proof.
  intros Hm. unfold PyCalendar.monthrange, days_in_month.
  rewrite is_leap_isleap.
  destruct m as [|p]; [lia|].
  do 4 (try destruct p as [p|p|]); try lia; simpl;
    try destruct (is_leap y); eexists; reflexivity.
Qed.

Lemma last_two_app (p : string) (a b : ascii) :
  last_two (p ++ String a (String b EmptyString))
  = String a (String b EmptyString).
Proof.
  unfold last_two. induction p as [|c p IH]; [reflexivity|].
  change (String c p ++ String a (String b EmptyString))%string
    with (String c (p ++ String a (String b EmptyString))).
  assert (Hlen : (2 <= String.length (p ++ String a (String b EmptyString)))%nat).
  { clear IH. induction p as [|c' p IHp]; [simpl; lia|].
    change (String c' p ++ String a (String b EmptyString))%string
      with (String c' (p ++ String a (String b EmptyString))).
    simpl String.length. lia. }
  simpl String.length.
  replace (S (String.length (p ++ String a (String b EmptyString))) - 2)%nat
    with (S (String.length (p ++ String a (String b EmptyString)) - 2)) by lia.
  exact IH.
Qed.

(** The last two characters of a written date read as its day. *)
Lemma date_text_day (year month : Z) (dd : N) :
  1 <= dd <= 31 →
  isdigit (last_two (date_text year month (Z.of_N dd))) = true ∧
  int_of_digits (last_two (date_text year month (Z.of_N dd))) = Z.of_N dd.
Proof.
  intros Hd. unfold date_text. rewrite (format_0d_2 dd) by lia.
  rewrite <- !append_assoc, last_two_app.
  unfold isdigit, int_of_digits. simpl.
  rewrite !digit_of_digit_char. simpl.
  split; [reflexivity|]. nlia.
Qed.

Lemma date_text_like (year month day : Z) :
  like ((format_0d 4 year ++ "-" ++ format_0d 2 month) ++ "-%")%string
    (date_text year month day) = true.
Proof.
  unfold date_text.
  change "-%"%string with ("-" ++ "%")%string.
  rewrite <- !append_assoc. apply like_own_prefix.
Qed.

End DateText.

(** ** ASCII dates *)

Lemma digit_char_ascii n : (N_of_ascii (digit_char n) <? 128)%N = true.
Proof.
  unfold digit_char. rewrite N_ascii_embedding by CalendarFacts.nlia.
  apply N.ltb_lt. CalendarFacts.nlia.
Qed.

Lemma strftime_ascii d : ascii_text (strftime d) = true.
Proof.
  unfold ascii_text, strftime. cbn [list_ascii_of_string forallb].
  rewrite !digit_char_ascii. reflexivity.
Qed.

Lemma credited_date_ascii env d :
  ascii_text d = true → ascii_text (credited_date env d) = true.
Proof.
  intros Hd. unfold credited_date.
  case_bool_decide; [apply strftime_ascii | assumption].
Qed.

(** A call of ASCII date keeps the dates of the user's rows ASCII; a call
    for another user does not touch them. *)
Lemma sign_keeps_ascii env uid d w u :
  (uid = u → ascii_text d = true) →
  (∀ r, r ∈ userSignLog (db w) → log_uid r = u →
        ascii_text (log_signDate r) = true) →
  ∀ r, r ∈ userSignLog (db (sign env uid d w).2) → log_uid r = u →
       ascii_text (log_signDate r) = true.
Proof.
  intros Hd Hw r Hr Hu.
  destruct (sign_log_step env uid d w) as [Hsame | (r0 & Hu0 & Hd0 & _ & Hlog)].
  - rewrite Hsame in Hr. auto.
  - rewrite Hlog in Hr. apply elem_of_cons in Hr as [-> | Hr]; [|auto].
    rewrite Hd0. apply credited_date_ascii. apply Hd. congruence.
Qed.

Lemma run_calls_keep_ascii cs w u :
  (∀ c, c ∈ cs → call_uid c = u → ascii_text (call_date c) = true) →
  (∀ r, r ∈ userSignLog (db w) → log_uid r = u →
        ascii_text (log_signDate r) = true) →
  ∀ r, r ∈ userSignLog (db (run_calls cs w)) → log_uid r = u →
       ascii_text (log_signDate r) = true.
Proof.
  revert w. induction cs as [|c cs IH]; intros w Hcs Hw; [exact Hw|].
  cbn [run_calls foldl]. apply IH.
  - intros c' Hc'. apply Hcs. apply elem_of_cons. auto.
  - apply sign_keeps_ascii; [|exact Hw].
    apply Hcs. apply elem_of_cons. auto.
Qed.

(** X22. A sign-in shows in the calendar: once sign has returned Success
    with the default date, whatever calls follow, as long as the dates of
    the user's rows and of the user's later calls are ASCII texts, the
    dates of the user's rows stay ASCII texts and the calendar of that year
    and month, drawn on an engine that does not fault, has the cell of
    that day green. *)
Theorem sign_in_today_is_green env uid w w' cs env' :
  valid_date (today env) = true →
  sign env uid "" w = (Ret 1, w') →
  faulty env' SelectLog = false →
  (∀ r, r ∈ userSignLog (db w) → log_uid r = uid →
        ascii_text (log_signDate r) = true) →
  (∀ c, c ∈ cs → call_uid c = uid → ascii_text (call_date c) = true) →
  (∀ r, r ∈ userSignLog (db (run_calls cs w')) → log_uid r = uid →
        ascii_text (log_signDate r) = true) ∧
  ∃ img firstWeekday totalDays,
    PyCalendar.monthrange (Z.of_N (year (today env))) (Z.of_N (month (today env)))
      = Ret (firstWeekday, totalDays) ∧
    (drawSignCalendarImage env' uid (Z.of_N (year (today env)))
       (Z.of_N (month (today env))) (run_calls cs w')).1 = Ret img ∧
    Rectangle (cell_box firstWeekday (Z.of_N (day (today env)))) GREEN "black" 2
      ∈ img_ops img.
Proof.
  intros Hv Hs Hok Hw Hcs.
  split.
  { apply run_calls_keep_ascii; [exact Hcs|].
    replace w' with (sign env uid "" w).2 by (rewrite Hs; reflexivity).
    apply sign_keeps_ascii; [reflexivity | exact Hw]. }
  pose proof (CalendarFacts.valid_date_bounds _ Hv) as (Hy & Hm & Hd).
  pose proof (CalendarFacts.days_in_month_le (year (today env)) (month (today env))).
  destruct (DateText.monthrange_days (year (today env)) (month (today env)) Hm)
    as (fw & Hrange).
  destruct (green_cell_iff_row env' uid _ _ (run_calls cs w') _ _
              (Z.of_N (day (today env))) Hrange ltac:(lia) Hok)
    as (img & Hrun & Hiff).
  exists img, fw, (Z.of_N (days_in_month (year (today env)) (month (today env)))).
  split; [exact Hrange|]. split; [exact Hrun|].
  apply Hiff.
  destruct (sign_success_inv _ _ _ _ _ Hs) as (_ & _ & cd & fe & fp & _ & _ & ->).
  match goal with
  | |- context [run_calls cs ?w1] =>
    assert (Hfound : find_log uid (credited_date env "") (db (run_calls cs w1))
                     = Some (mkLogRow uid (credited_date env "")
                               (is_supplement env "") fe fp))
      by (apply find_log_run_calls; apply find_log_committed)
  end.
  unfold find_log in Hfound.
  apply find_some in Hfound as [Hin Hkey].
  eexists. split; [apply list_elem_of_In; exact Hin|].
  cbn [log_uid log_signDate]. split; [reflexivity|].
  change (credited_date env "") with (strftime (today env)).
  rewrite (DateText.strftime_date_text _ Hv).
  split; [apply DateText.date_text_like|].
  apply DateText.date_text_day. lia.
Qed.

Lemma sign_in_today_is_green_witness :
  ∃ img,
    (drawSignCalendarImage (calm (mkDate 2025 6 1) 0) "u1" 2025 5
       (run_calls back_and_forth
          (sign (calm (mkDate 2025 5 3) 7) "u1" "" two_day_streak).2)).1 = Ret img ∧
    Rectangle (cell_box 3 3) GREEN "black" 2 ∈ img_ops img.
Proof.
  destruct (sign_in_today_is_green (calm (mkDate 2025 5 3) 7) "u1" two_day_streak
              (sign (calm (mkDate 2025 5 3) 7) "u1" "" two_day_streak).2
              back_and_forth (calm (mkDate 2025 6 1) 0))
    as (_ & img & fw & nd & Hrange & Hrun & Hgreen).
  - reflexivity.
  - vm_compute. reflexivity.
  - reflexivity.
  - intros r Hr _. apply list_elem_of_In in Hr. vm_compute in Hr.
    destruct Hr as [<- | [<- | []]]; reflexivity.
  - intros c Hc _. apply list_elem_of_In in Hc. vm_compute in Hc.
    destruct Hc as [<- | [<- | [<- | []]]]; reflexivity.
  - vm_compute in Hrange. injection Hrange as <- <-.
    exists img. split; [exact Hrun | exact Hgreen].
Defined.

(** ** Sign-ins day after day *)

Lemma minus_one_day_key (d p : date) :
  valid_date d = true → minus_one_day d = Some p → (date_key p < date_key d)%N.
Proof.
  intros Hv Hp. pose proof (CalendarFacts.valid_date_bounds d Hv) as (Hy & Hm & Hd).
  pose proof (CalendarFacts.days_in_month_le (year d) (month d - 1)).
  unfold minus_one_day in Hp. unfold date_key.
  destruct (1 <? day d)%N eqn:H1.
  { injection Hp as <-. simpl. apply N.ltb_lt in H1. lia. }
  destruct (1 <? month d)%N eqn:H2.
  { injection Hp as <-. simpl. apply N.ltb_lt in H2. lia. }
  destruct (1 <? year d)%N eqn:H3; [|discriminate].
  injection Hp as <-. simpl. apply N.ltb_lt in H3. lia.
Qed.

Lemma strftime_inj (d d' : date) :
  valid_date d = true → valid_date d' = true → strftime d = strftime d' → d = d'.
Proof.
  intros Hv Hv' Heq.
  pose proof (CalendarFacts.strptime_strftime d Hv) as H.
  rewrite Heq, (CalendarFacts.strptime_strftime d' Hv') in H. congruence.
Qed.

Lemma streak_until_free uid d k st d1 :
  streak_until uid d k st → valid_date d1 = true →
  (date_key d < date_key d1)%N →
  find_log uid (strftime d1) st = None.
Proof.
  intros [_ Hrows] Hv Hlt. unfold find_log.
  destruct (List.find _ _) as [r|] eqn:Hfind; [|reflexivity].
  apply find_some in Hfind as [Hin Hkey]. unfold log_key in Hkey.
  apply andb_true_iff in Hkey as [Hu Hd].
  apply bool_decide_eq_true in Hu. apply bool_decide_eq_true in Hd.
  destruct (Hrows r (proj2 (list_elem_of_In _ _) Hin) Hu) as (d' & Hv' & Hd' & Hle).
  rewrite Hd' in Hd. apply strftime_inj in Hd; [|assumption..]. subst d'. lia.
Qed.

(** One more day of a streak. *)
Lemma streak_until_step uid d k c w :
  streak_until uid d k (db w) →
  call_uid c = uid → call_date c = "" →
  (∀ s, faulty (call_env c) s = false) →
  valid_date (today (call_env c)) = true →
  minus_one_day (today (call_env c)) = Some d →
  (sign (call_env c) (call_uid c) (call_date c) w).1 = Ret 1 ∧
  streak_until uid (today (call_env c)) (k + 1) (db (run_call w c)).
Proof.
  intros Hst Hu Hdate Hok Hv Hprev. unfold run_call. rewrite Hu, Hdate.
  set (env := call_env c) in *.
  pose proof (minus_one_day_key _ _ Hv Hprev) as Hlt.
  assert (Hfree : find_log uid (credited_date env "") (db w) = None)
    by (apply (streak_until_free uid d k); assumption).
  assert (Hne : today env ≠ mkDate 1 1 1).
  { intros Heq. rewrite Heq in Hprev. discriminate. }
  destruct (sign_success env uid "" w Hfree Hok Hv Hne) as (w' & Hs).
  rewrite Hs. split; [reflexivity|]. simpl.
  destruct (sign_success_inv _ _ _ _ _ Hs) as (_ & _ & cd & fe & fp & Hcd & _ & ->).
  destruct Hst as [(row & Hrow & Hlast & Hcont) Hrows].
  assert (Hsup : is_supplement env "" = false).
  { unfold is_supplement.
    change (credited_date env "") with (strftime (today env)).
    rewrite bool_decide_true by reflexivity. reflexivity. }
  change (credited_date env "") with (strftime (today env)) in *.
  rewrite Hrow, Hsup, (streak_of_today env row d Hv Hprev) in Hcd.
  rewrite bool_decide_true in Hcd by assumption. injection Hcd as <-.
  split.
  - eexists. unfold committed. simpl userSignSummary.
    rewrite lookup_insert_eq. split; [reflexivity|].
    rewrite Hrow. simpl. split; [reflexivity | lia].
  - simpl. intros r Hin Hr. apply elem_of_cons in Hin as [-> | Hin].
    + exists (today env). simpl. repeat split; [assumption | lia].
    + destruct (Hrows r Hin Hr) as (d' & Hv' & Hd' & Hle).
      exists d'. repeat split; [assumption.. | lia].
Qed.

Lemma daily_calls_streak uid d k cs w :
  streak_until uid d k (db w) → daily_calls uid d cs →
  call_results cs w = repeat (Ret 1) (length cs) ∧
  ∃ d', streak_until uid d' (k + Z.of_nat (length cs)) (db (run_calls cs w)).
Proof.
  revert d k w. induction cs as [|c cs IH]; intros d k w Hst Hcs.
  - simpl. split; [reflexivity|]. exists d. rewrite Z.add_0_r. assumption.
  - destruct Hcs as (Hu & Hdate & Hok & Hv & Hprev & Hrest).
    destruct (streak_until_step uid d k c w Hst Hu Hdate Hok Hv Hprev) as [Hres Hst'].
    destruct (IH _ _ _ Hst' Hrest) as [Hresults (d' & Hfinal)].
    split.
    + simpl. rewrite Hres, Hresults. reflexivity.
    + exists d'. simpl run_calls.
      replace (k + Z.of_nat (length (c :: cs))) with (k + 1 + Z.of_nat (length cs))
        by (simpl length; lia).
      assumption.
Qed.

(** The first sign-in of a user starts a streak of one day. *)
Lemma first_sign_in_streak c uid :
  call_uid c = uid → call_date c = "" →
  (∀ s, faulty (call_env c) s = false) →
  valid_date (today (call_env c)) = true →
  (sign (call_env c) (call_uid c) (call_date c) initial_world).1 = Ret 1 ∧
  streak_until uid (today (call_env c)) 1 (db (run_call initial_world c)).
Proof.
  intros Hu Hdate Hok Hv. unfold run_call. rewrite Hu, Hdate.
  set (env := call_env c) in *.
  pose proof (sign_cases env uid "" initial_world) as Hcases. simpl in Hcases.
  rewrite lookup_empty in Hcases.
  destruct Hcases
    as [(_ & Hk & _) | [(w0 & _ & _ & _ & _ & Hwhy) |
                         (_ & _ & cd & fe & fp & _ & _ & H)]].
  - exfalso. apply Hk. reflexivity.
  - exfalso. destruct Hwhy as [(s & Hs) | (e & He)].
    + rewrite Hok in Hs. discriminate.
    + discriminate.
  - rewrite H. split; [reflexivity|]. split.
    + eexists. unfold committed. simpl userSignSummary.
      rewrite lookup_insert_eq. split; [reflexivity|].
      rewrite lookup_empty. simpl. auto.
    + intros r Hin Hr. apply list_elem_of_singleton in Hin as ->.
      exists (today env). simpl. repeat split; [assumption | lia].
Qed.

(** X23. Streak continuity: when a user signs in with the default date on
    consecutive days, starting with no sign-in at all and on a working
    engine, every call returns Success and after the n-th day the stored
    continuousDays is n. *)
Theorem consecutive_days_build_the_streak uid c cs :
  call_uid c = uid → call_date c = "" →
  (∀ s, faulty (call_env c) s = false) →
  valid_date (today (call_env c)) = true →
  daily_calls uid (today (call_env c)) cs →
  call_results (c :: cs) initial_world = repeat (Ret 1) (length (c :: cs)) ∧
  ∃ row, userSignSummary (db (run_calls (c :: cs) initial_world)) !! uid = Some row ∧
         continuousDays row = Z.of_nat (length (c :: cs)).
Proof.
  intros Hu Hdate Hok Hv Hcs.
  destruct (first_sign_in_streak c uid Hu Hdate Hok Hv) as [Hres Hst].
  destruct (daily_calls_streak uid _ 1 cs _ Hst Hcs)
    as [Hresults (d' & (row & Hrow & _ & Hcont) & _)].
  split.
  - simpl. rewrite Hres. f_equal. exact Hresults.
  - exists row. split; [exact Hrow|]. rewrite Hcont. simpl length. lia.
Qed.

Lemma consecutive_days_build_the_streak_witness :
  call_results two_days initial_world = [Ret 1; Ret 1] ∧
  ∃ row, userSignSummary (db (run_calls two_days initial_world)) !! "u1" = Some row ∧
         continuousDays row = 2.
Proof.
  apply (consecutive_days_build_the_streak "u1"
           (mkCall (calm (mkDate 2025 5 1) 7) "u1" "")
           [mkCall (calm (mkDate 2025 5 2) 7) "u1" ""]).
  - reflexivity.
  - reflexivity.
  - reflexivity.
  - reflexivity.
  - simpl. repeat split; reflexivity.
Defined.

(** ** The monthly count and the month of the summary *)

Module LikeMonth.

#[local] Open Scope N_scope.

(** Case analysis on a digit character. *)
Ltac digit_cases n :=
  unfold digit_char;
  let H := fresh "H" in
  assert (H : n mod 10 < 10) by (apply N.mod_lt; lia);
  let k := fresh "k" in
  generalize dependent (n mod 10); intros k H;
  destruct k as [|k]; [|do 4 (try destruct k as [k|k|])]; try lia; clear H.

Lemma like_digit (n n' : N) (p s : string) :
  like (String (digit_char n) p) (String (digit_char n') s)
  = Ascii.eqb (digit_char n) (digit_char n') && like p s.
Proof. digit_cases n; digit_cases n'; reflexivity. Qed.

Lemma like_dash (p s : string) : like (String "-" p) (String "-" s) = like p s.
Proof. reflexivity. Qed.

(** On dates written by the clock, [LIKE] the month followed by a dash
    and anything says the same as comparing the first seven characters. *)
Lemma like_month_iff (d0 d : date) :
  like (month_of (strftime d0) ++ "-%") (strftime d)
  = bool_decide (month_of (strftime d) = month_of (strftime d0)).
Proof.
  unfold strftime, month_of. cbn [substring].
  change (?a ++ "-%")%string with
    (String (digit_char (year d0 / 1000)) (String (digit_char (year d0 / 100))
    (String (digit_char (year d0 / 10)) (String (digit_char (year d0))
    (String "-" (String (digit_char (month d0 / 10)) (String (digit_char (month d0))
    (String "-" (String "%" EmptyString))))))))).
  rewrite !like_digit, like_dash, !like_digit, like_dash.
  change (like "%" _) with true.
  repeat match goal with
  | |- context [Ascii.eqb ?a ?b] =>
    destruct (Ascii.eqb_spec a b) as [-> | ?];
      [cbn [andb] | rewrite bool_decide_false by congruence; reflexivity]
  end.
  rewrite bool_decide_true by reflexivity. reflexivity.
Qed.

End LikeMonth.

(** X24. On a log whose dates for the user were all written in the format
    of the clock, getUserSignCountByDate for the month of a day is the
    number of the user's rows whose first seven characters are that month,
    the count monthSignDays is kept against. *)
Theorem month_count_is_prefix_count env uid day0 w :
  faulty env SelectLog = false →
  (∀ r, r ∈ userSignLog (db w) → log_uid r = uid →
        ∃ day, log_signDate r = strftime day) →
  (getUserSignCountByDate env uid (month_of (strftime day0)) w).1
  = Ret (count_month uid (month_of (strftime day0)) (userSignLog (db w))).
Proof.
  intros Hok Hfmt. rewrite getUserSignCountByDate_run, Hok. simpl. f_equal.
  unfold select_dates_like. rewrite length_fmap. unfold count_month. f_equal.
  induction (userSignLog (db w)) as [|r l IH]; [reflexivity|].
  rewrite !filter_cons.
  assert (Hl : ∀ r0, r0 ∈ l → log_uid r0 = uid → ∃ day, log_signDate r0 = strftime day).
  { intros r0 Hr0. apply Hfmt. apply elem_of_cons. auto. }
  specialize (IH Hl).
  destruct (decide (log_uid r = uid)) as [Hu | Hu].
  - destruct (Hfmt r ltac:(apply elem_of_cons; auto) Hu) as (day & Hday).
    rewrite Hday, LikeMonth.like_month_iff.
    case_bool_decide as Hmonth.
    + rewrite !decide_True by auto. cbn [length]. f_equal. exact IH.
    + rewrite !decide_False by (intros [_ ?]; congruence). exact IH.
  - rewrite !decide_False by tauto. exact IH.
Qed.

Lemma month_count_is_prefix_count_witness :
  (getUserSignCountByDate (calm (mkDate 2025 6 1) 0) "u1" "2025-05"
     (run_calls back_and_forth initial_world)).1
  = Ret (count_month "u1" "2025-05"
           (userSignLog (db (run_calls back_and_forth initial_world)))).
Proof.
  apply (month_count_is_prefix_count (calm (mkDate 2025 6 1) 0) "u1"
           (mkDate 2025 5 1) (run_calls back_and_forth initial_world)).
  - reflexivity.
  - intros r Hr _. apply list_elem_of_In in Hr. vm_compute in Hr.
    destruct Hr as [<- | [<- | [<- | []]]].
    + exists (mkDate 2025 5 2). reflexivity.
    + exists (mkDate 2025 4 20). reflexivity.
    + exists (mkDate 2025 5 1). reflexivity.
Defined.

(** ** Rows and results *)

(** X25. No double credit: when the log already has a row for the user
    and the date, sign never returns Success and never changes the
    storage, whatever statements fault, the lookup of hasSigned included. *)
Theorem signed_date_is_never_credited_again env uid d w :
  find_log uid (credited_date env d) (db w) ≠ None →
  (sign env uid d w).1 ≠ Ret 1 ∧ db (sign env uid d w).2 = db w.
Proof.
  intros Hk.
  destruct (sign_cases env uid d w)
    as [(_ & _ & H) | [(w0 & H & Hdb & _) | (Hfree & _)]].
  - rewrite H. split; [discriminate | reflexivity].
  - rewrite H. split; [discriminate | assumption].
  - contradiction.
Qed.

Lemma signed_date_is_never_credited_again_witness :
  (sign (mkEnv (mkDate 2025 5 2) (λ _, 7) (faults_on [SelectLog])) "u1" ""
     two_day_streak).1 ≠ Ret 1 ∧
  db (sign (mkEnv (mkDate 2025 5 2) (λ _, 7) (faults_on [SelectLog])) "u1" ""
        two_day_streak).2 = db two_day_streak.
Proof.
  apply (signed_date_is_never_credited_again
           (mkEnv (mkDate 2025 5 2) (λ _, 7) (faults_on [SelectLog])) "u1" ""
           two_day_streak).
  vm_compute. discriminate.
Defined.

Lemma sign_row_count env uid d w :
  length (userSignLog (db (sign env uid d w).2)) =
    ((if is_success (sign env uid d w).1 then 1 else 0)
     + length (userSignLog (db w)))%nat.
Proof.
  destruct (sign_cases env uid d w)
    as [(_ & _ & H) | [(w0 & H & Hdb & _) | (_ & _ & cd & fe & fp & _ & _ & H)]];
    rewrite H; simpl; [reflexivity | rewrite Hdb; reflexivity | reflexivity].
Qed.

(** X26. Rows and results agree: over any sequence of calls the log grows
    by exactly one row for each call that returned Success, and by nothing
    else. *)
Theorem one_row_per_success cs w :
  length (userSignLog (db (run_calls cs w))) =
    (successes (call_results cs w) + length (userSignLog (db w)))%nat.
Proof.
  revert w. induction cs as [|c cs IH]; intros w; [reflexivity|].
  simpl run_calls. simpl call_results. rewrite IH. unfold run_call at 2.
  rewrite sign_row_count. unfold successes. rewrite filter_cons.
  destruct (is_success _) eqn:Hs.
  - rewrite decide_True by reflexivity. simpl. lia.
  - rewrite decide_False by discriminate. simpl. lia.
Qed.

(** ** Columns of the calendar *)

Lemma weekday_of_day (year month day : Z) :
  PyCalendar.weekday year month day
  = (PyCalendar.weekday year month 1 + day - 1) mod 7.
Proof.
  unfold PyCalendar.weekday, PyCalendar._ymd2ord.
  set (y := if (1 <=? year) && (year <=? 9999) then year else 2000 + year mod 400).
  set (base := PyCalendar._days_before_year y + PyCalendar._days_before_month y month).
  Z.to_euclidean_division_equations. lia.
Qed.

(** X27. Each day is drawn in the column of its weekday, Monday first:
    the left edge of the cell of a day is the padding plus the weekday of
    that date times the cell size. *)
Theorem calendar_column_is_weekday year month firstWeekday totalDays day :
  PyCalendar.monthrange year month = Ret (firstWeekday, totalDays) →
  1 ≤ day ≤ totalDays →
  (cell_box firstWeekday day).1.1.1
  = padding + PyCalendar.weekday year month day * cellSize.
Proof.
  intros Hrange Hday. unfold PyCalendar.monthrange in Hrange.
  destruct ((1 <=? month) && (month <=? 12)); [|discriminate].
  injection Hrange as <- _.
  rewrite (weekday_of_day year month day). unfold cell_box, cols. simpl.
  f_equal. f_equal. f_equal. lia.
Qed.

Lemma calendar_column_is_weekday_witness :
  (cell_box 3 4).1.1.1 = padding + PyCalendar.weekday 2025 5 4 * cellSize.
Proof.
  apply (calendar_column_is_weekday 2025 5 3 31 4).
  - reflexivity.
  - lia.
Defined.
